(** * alpy/api.py: the REST client, its entity wrapper and its resource paths

    A shallow embedding of [src/alpy/api.py].  Python values that travel
    through the client (decoded JSON, request data, identifiers) are one
    inductive type; raising code returns a [result]; the HTTP session is
    a function from the arguments of [Session.request] to its outcome,
    and every call made through it is appended to a log, so that what a
    method sends can be stated next to what it returns. *)

From Stdlib Require Import String Ascii List ZArith Bool Lia DecimalString.
Import ListNotations.
Local Open Scope string_scope.
Local Open Scope Z_scope.
Set Warnings "-register-all".

(** ** Python values *)

(** The values [json.loads] produces and [json.dumps] accepts.  A [str]
    is a sequence of characters with code points below 256.  A [float] is
    carried by its [repr].  A [dict] is the list of its items in
    insertion order; a key is looked up from the front. *)
Inductive PyVal : Type :=
| PyNone
| PyBool (b : bool)
| PyInt (z : Z)
| PyFloat (repr : string)
| PyStr (s : string)
| PyList (items : list PyVal)
| PyDict (items : list (string * PyVal)).

(** The exceptions the client can raise or let through. *)
Inductive exn : Type :=
| HTTPError (status : Z)
| JSONDecodeError
| ConnectionError
| APIError (args : PyVal) (_error : PyVal)
| KeyError (key : string)
| IndexError
| TypeError
| ValueError
| AttributeError (name : string).

Inductive result (A : Type) : Type :=
| Ok (a : A)
| Raise (e : exn).
Arguments Ok {A} a.
Arguments Raise {A} e.

Definition rbind {A B} (r : result A) (k : A -> result B) : result B :=
  match r with
  | Ok a => k a
  | Raise e => Raise e
  end.

Declare Scope result_scope.
Delimit Scope result_scope with result.
Notation "x <- c ;; k" := (rbind c (fun x => k))
  (at level 61, c at next level, right associativity) : result_scope.

Section Rmap.

Context {A B : Type} (f : A -> result B).

(** A list comprehension over raising code: the items are done in
    order and the first exception ends it. *)
Fixpoint rmap (xs : list A) : result (list B) :=
  match xs with
  | [] => Ok []
  | x :: xs' =>
      (y <- f x ;;
       ys <- rmap xs' ;;
       Ok (y :: ys))%result
  end.

End Rmap.

(** ** Strings *)

Module Str.

Definition quote2 : ascii := ascii_of_nat 34.
Definition quote1 : ascii := ascii_of_nat 39.
Definition backslash : ascii := ascii_of_nat 92.

Definition is_lower (c : ascii) : bool :=
  let n := nat_of_ascii c in (97 <=? n)%nat && (n <=? 122)%nat.

(** [str.upper] on one character: the letters a to z.  No character
    from 128 to 255 upper-cases to G, E or T, so leaving those as they
    are does not change the one comparison [upper] is used in. *)
Definition upper_char (c : ascii) : ascii :=
  if is_lower c then ascii_of_nat (nat_of_ascii c - 32) else c.

Fixpoint upper (s : string) : string :=
  match s with
  | EmptyString => EmptyString
  | String c s' => String (upper_char c) (upper s')
  end.

Fixpoint startswith (s p : string) : bool :=
  match p, s with
  | EmptyString, _ => true
  | String _ _, EmptyString => false
  | String b p', String a s' => Ascii.eqb a b && startswith s' p'
  end.

Fixpoint drop (n : nat) (s : string) : string :=
  match n, s with
  | O, _ => s
  | S _, EmptyString => EmptyString
  | S n', String _ s' => drop n' s'
  end.

Definition endswith (s suffix : string) : bool :=
  (String.length suffix <=? String.length s)%nat
  && String.eqb (drop (String.length s - String.length suffix) s) suffix.

(** [sub in s] for two strings. *)
Fixpoint contains (s sub : string) : bool :=
  startswith s sub
  || match s with
     | EmptyString => false
     | String _ s' => contains s' sub
     end.

Fixpoint mem (c : ascii) (s : string) : bool :=
  match s with
  | EmptyString => false
  | String a s' => Ascii.eqb a c || mem c s'
  end.

Fixpoint join (sep : string) (parts : list string) : string :=
  match parts with
  | [] => ""
  | [p] => p
  | p :: ps => p ++ sep ++ join sep ps
  end.

Definition hex_digit (n : nat) : ascii :=
  if (n <? 10)%nat then ascii_of_nat (48 + n) else ascii_of_nat (87 + n).

Definition printable (c : ascii) : bool :=
  let n := nat_of_ascii c in
  ((32 <=? n)%nat && (n <? 127)%nat)
  || ((161 <=? n)%nat && negb (n =? 173)%nat).

Definition repr_char (q c : ascii) : string :=
  if Ascii.eqb c q || Ascii.eqb c backslash then String backslash (String c "")
  else if Ascii.eqb c (ascii_of_nat 9) then String backslash "t"
  else if Ascii.eqb c (ascii_of_nat 10) then String backslash "n"
  else if Ascii.eqb c (ascii_of_nat 13) then String backslash "r"
  else if printable c then String c ""
  else let n := nat_of_ascii c in
       String backslash
         (String "x" (String (hex_digit (n / 16)) (String (hex_digit (n mod 16)) ""))).

Fixpoint repr_body (q : ascii) (s : string) : string :=
  match s with
  | EmptyString => EmptyString
  | String c s' => repr_char q c ++ repr_body q s'
  end.

(** [repr] of a [str]: single quotes, unless the text has a single
    quote and no double quote. *)
Definition repr (s : string) : string :=
  let q := if mem quote1 s && negb (mem quote2 s) then quote2 else quote1 in
  String q (repr_body q s ++ String q "").

(** CPython's default limit on the decimal digits of an integer that
    is turned into text. *)
Definition int_max_str_digits : nat := 4300.

(** [str(z)] for an integer: its decimal digits after the sign, or
    [ValueError] when there are more digits than the limit. *)
Definition of_Z (z : Z) : result string :=
  if (String.length (NilZero.string_of_uint (N.to_uint (Z.abs_N z)))
      <=? int_max_str_digits)%nat
  then Ok (NilZero.string_of_int (Z.to_int z))
  else Raise ValueError.

(** A name of the form [__x__], the form Python keeps for the names the
    interpreter itself gives to objects. *)
Definition is_dunder (name : string) : bool :=
  startswith name "__" && endswith name "__".

End Str.

(** ** Operations on values *)

Module Py.

Fixpoint dict_get (items : list (string * PyVal)) (key : string) : option PyVal :=
  match items with
  | [] => None
  | (k, v) :: rest => if String.eqb k key then Some v else dict_get rest key
  end.

(** [d[key] = v]: the value of an existing key is replaced in place,
    a new key goes to the end. *)
Fixpoint dict_set (items : list (string * PyVal)) (key : string) (v : PyVal)
  : list (string * PyVal) :=
  match items with
  | [] => [(key, v)]
  | (k, w) :: rest =>
      if String.eqb k key then (k, v) :: rest else (k, w) :: dict_set rest key v
  end.

Definition is_str (key : string) (v : PyVal) : bool :=
  match v with
  | PyStr s => String.eqb s key
  | _ => false
  end.

(** [key in container] for a [str] key. *)
Definition contains (container : PyVal) (key : string) : result bool :=
  match container with
  | PyDict items =>
      Ok (match dict_get items key with Some _ => true | None => false end)
  | PyList items => Ok (existsb (is_str key) items)
  | PyStr s => Ok (Str.contains s key)
  | PyNone | PyBool _ | PyInt _ | PyFloat _ => Raise TypeError
  end.

(** [container[key]] for a [str] key. *)
Definition getitem (container : PyVal) (key : string) : result PyVal :=
  match container with
  | PyDict items =>
      match dict_get items key with
      | Some v => Ok v
      | None => Raise (KeyError key)
      end
  | _ => Raise TypeError
  end.

(** The items a [for] loop draws from a value. *)
Definition iter (v : PyVal) : result (list PyVal) :=
  match v with
  | PyList items => Ok items
  | PyDict items => Ok (map (fun kv => PyStr (fst kv)) items)
  | PyStr s => Ok (map (fun c => PyStr (String c "")) (list_ascii_of_string s))
  | PyNone | PyBool _ | PyInt _ | PyFloat _ => Raise TypeError
  end.

(** [repr(v)]; it raises where the text of an integer inside [v] does. *)
Fixpoint repr (v : PyVal) : result string :=
  match v with
  | PyNone => Ok "None"
  | PyBool true => Ok "True"
  | PyBool false => Ok "False"
  | PyInt z => Str.of_Z z
  | PyFloat r => Ok r
  | PyStr s => Ok (Str.repr s)
  | PyList items =>
      (parts <- rmap repr items ;;
       Ok ("[" ++ Str.join ", " parts ++ "]"))%result
  | PyDict items =>
      (parts <- rmap (fun kv => match kv with
                                | (k, w) =>
                                    (value <- repr w ;;
                                     Ok (Str.repr k ++ ": " ++ value))%result
                                end) items ;;
       Ok ("{" ++ Str.join ", " parts ++ "}"))%result
  end.

(** [str(v)], which is what an empty replacement field prints. *)
Definition str (v : PyVal) : result string :=
  match v with
  | PyStr s => Ok s
  | _ => repr v
  end.

(** [template.format(a, b, ...)] for templates whose replacement fields are
    all the empty field [{}], the only kind the client's templates
    have.  The fields are filled from left to right, and an argument
    whose text cannot be made ends the call with its exception.  A
    brace that does not open an empty field is a [ValueError];
    arguments left over are ignored. *)
Fixpoint format (template : string) (args : list PyVal) : result string :=
  match template with
  | EmptyString => Ok EmptyString
  | String c rest =>
      if Ascii.eqb c "{" then
        match rest with
        | String c' rest' =>
            if Ascii.eqb c' "}" then
              match args with
              | a :: args' =>
                  (text <- str a ;;
                   tail <- format rest' args' ;;
                   Ok (text ++ tail))%result
              | [] => Raise IndexError
              end
            else Raise ValueError
        | EmptyString => Raise ValueError
        end
      else if Ascii.eqb c "}" then Raise ValueError
      else (tail <- format rest args ;; Ok (String c tail))%result
  end.

End Py.

(** ** The pattern [ISO8601YMD] *)

Module Re.

Inductive atom : Type :=
| Digit
| Lit (c : ascii).

(** A pattern is a sequence of atoms, each repeated a fixed number of
    times: all that [\d{4}-\d{2}-\d{2}T] needs. *)
Definition pattern : Type := list (atom * nat).

Definition is_digit (c : ascii) : bool :=
  let n := nat_of_ascii c in (48 <=? n)%nat && (n <=? 57)%nat.

Definition atom_matches (a : atom) (c : ascii) : bool :=
  match a with
  | Digit => is_digit c
  | Lit l => Ascii.eqb c l
  end.

(** [count] characters matching [a], then the rest of the text. *)
Fixpoint repeat_atom (a : atom) (count : nat) (s : string) : option string :=
  match count with
  | O => Some s
  | S n =>
      match s with
      | String c s' => if atom_matches a c then repeat_atom a n s' else None
      | EmptyString => None
      end
  end.

Fixpoint match_here (p : pattern) (s : string) : bool :=
  match p with
  | [] => true
  | (a, n) :: p' =>
      match repeat_atom a n s with
      | Some s' => match_here p' s'
      | None => false
      end
  end.

(** [pattern.match(val)], as a truth value: anchored at the start of
    the text; a value that is not a [str] is a [TypeError]. *)
Definition match_ (p : pattern) (val : PyVal) : result bool :=
  match val with
  | PyStr s => Ok (match_here p s)
  | _ => Raise TypeError
  end.

End Re.

Definition ISO8601YMD : Re.pattern :=
  [(Re.Digit, 4%nat); (Re.Lit "-", 1%nat); (Re.Digit, 2%nat);
   (Re.Lit "-", 1%nat); (Re.Digit, 2%nat); (Re.Lit "T", 1%nat)].

(** ** The [requests] library, as far as the client uses it *)

Module Requests.

(** A response: its status and what [Response.json()] finds in the
    body, [None] when the body is not JSON. *)
Record Response : Type := {
  status_code : Z;
  body : option PyVal
}.

Definition json (resp : Response) : result PyVal :=
  match body resp with
  | Some v => Ok v
  | None => Raise JSONDecodeError
  end.

(** [Response.raise_for_status()]: client errors (4xx) and server
    errors (5xx) raise, every other status passes. *)
Definition raise_for_status (resp : Response) : result unit :=
  if (400 <=? status_code resp) && (status_code resp <? 600)
  then Raise (HTTPError (status_code resp))
  else Ok tt.

(** One call of [Session.request(method, url, **kwargs)]. *)
Record Call : Type := {
  method : string;
  url : string;
  kwargs : list (string * PyVal)
}.

(** What the network does with a call: a response, or a failure such
    as [ConnectionError]. *)
Definition Session : Type := Call -> result Response.

End Requests.
Import Requests.

(** ** Code that talks to the network

    A computation reads the log of the calls made so far and returns its
    outcome with the log extended by the calls it made. *)

Definition Net (A : Type) : Type := list Call -> result A * list Call.

Definition ret {A} (a : A) : Net A := fun log => (Ok a, log).

Definition raise {A} (e : exn) : Net A := fun log => (Raise e, log).

Definition lift {A} (r : result A) : Net A := fun log => (r, log).

Definition bind {A B} (m : Net A) (k : A -> Net B) : Net B :=
  fun log =>
    match m log with
    | (Ok a, log') => k a log'
    | (Raise e, log') => (Raise e, log')
    end.

Declare Scope net_scope.
Delimit Scope net_scope with net.
Notation "x <- c ;; k" := (bind c (fun x => k))
  (at level 61, c at next level, right associativity) : net_scope.

Definition session_request (session : Session) (method url : string)
           (kwargs : list (string * PyVal)) : Net Response :=
  fun log =>
    let call := {| method := method; url := url; kwargs := kwargs |} in
    (session call, (log ++ [call])%list).

(** The outcome and the calls of a computation started on an empty log. *)
Definition run {A} (m : Net A) : result A * list Call := m [].

(** ** class APIError *)

(** [APIError(error)]: the exception's argument is [error['message']],
    the body is kept as [_error]. *)
Definition APIError_init (error : PyVal) : result exn :=
  (message <- Py.getitem error "message" ;;
   Ok (APIError message error))%result.

(** The property [code]. *)
Definition APIError_code (e : exn) : result PyVal :=
  match e with
  | APIError _ error => Py.getitem error "code"
  | _ => Raise (AttributeError "code")
  end.

(** ** class API *)

Module API.

Record t : Type := {
  _key : string;
  _base_url : string;
  _session : Session
}.

Fixpoint environ_get (environ : list (string * string)) (name default : string)
  : string :=
  match environ with
  | [] => default
  | (k, v) :: rest => if String.eqb k name then v else environ_get rest name default
  end.

Definition __init__ (environ : list (string * string)) (session : Session)
           (api_key : string) : t :=
  {| _key := api_key;
     _base_url := environ_get environ "ALPACA_API_BASE_URL" "https://api.alpaca.markets";
     _session := session |}.

Definition _request (self : t) (method path : string) (data : PyVal) : Net PyVal :=
  let url := _base_url self ++ path in
  let headers := PyDict [("X-API-KEY", PyStr (_key self))] in
  let opts := [("headers", headers)] in
  let opts :=
    if String.eqb (Str.upper method) "GET"
    then Py.dict_set opts "params" data
    else Py.dict_set opts "json" data in
  (resp <- session_request (_session self) method url opts ;;
   _ <- match raise_for_status resp with
        | Ok _ => ret tt
        | Raise (HTTPError _) =>
            error <- lift (json resp) ;;
            has_code <- lift (Py.contains error "code") ;;
            if has_code : bool
            then (exc <- lift (APIError_init error) ;; raise exc)
            else ret tt
        | Raise e => raise e
        end ;;
   lift (json resp))%net.

Definition get (self : t) (path : string) (data : PyVal) : Net PyVal :=
  _request self "GET" path data.

Definition post (self : t) (path : string) (data : PyVal) : Net PyVal :=
  _request self "POST" path data.

Definition patch (self : t) (path : string) (data : PyVal) : Net PyVal :=
  _request self "PATCH" path data.

Definition delete (self : t) (path : string) (data : PyVal) : Net PyVal :=
  _request self "DELETE" path data.

End API.

(** ** What attribute access can give

    A field of the record, a parsed instant, the client, a method of
    one of the classes, or something the interpreter itself provides
    under one of its own names. *)

Inductive Attr (datetime : Type) : Type :=
| AValue (v : PyVal)
| ADatetime (d : datetime)
| ATransport (api : API.t)
| AMethod (owner name : string)
| ABuiltin (name : string).
Arguments AValue {datetime} v.
Arguments ADatetime {datetime} d.
Arguments ATransport {datetime} api.
Arguments AMethod {datetime} owner name.
Arguments ABuiltin {datetime} name.

Fixpoint attr_get {A} (attrs : list (string * A)) (name : string) : option A :=
  match attrs with
  | [] => None
  | (k, a) :: rest => if String.eqb k name then Some a else attr_get rest name
  end.

(** ** Names the interpreter provides

    CPython 3.11 and 3.12; all of these are double-underscore names,
    and other versions differ by a few more of that form. *)

(** The attributes of [object]. *)
Definition object_attrs : list string :=
  ["__class__"; "__delattr__"; "__dir__"; "__doc__"; "__eq__"; "__format__";
   "__ge__"; "__getattribute__"; "__getstate__"; "__gt__"; "__hash__"; "__init__";
   "__init_subclass__"; "__le__"; "__lt__"; "__ne__"; "__new__"; "__reduce__";
   "__reduce_ex__"; "__repr__"; "__setattr__"; "__sizeof__"; "__str__";
   "__subclasshook__"].

(** What a class written with [class] and its instances have besides. *)
Definition class_given_attrs : list string :=
  ["__module__"; "__dict__"; "__weakref__"; "__doc__"].

(** What the object that [super()] returns has of its own. *)
Definition super_own_attrs : list string :=
  ["__thisclass__"; "__self__"; "__self_class__"; "__get__"].

(** ** class Entity *)

Module Entity.

Record t : Type := { _obj : PyVal }.

Definition __init__ (obj : PyVal) : t := {| _obj := obj |}.

Section Access.

(** [dateutil.parser.parse], which lives outside the repository. *)
Context {datetime : Type} (dateutil_parse : string -> result datetime).

(** [getattr(super(), key)]: the base class is [object], so the
    look-up finds the attributes of [object] and those of the [super]
    object itself, and fails for every other name. *)
Definition super_getattr (key : string) : result (Attr datetime) :=
  if existsb (String.eqb key) (object_attrs ++ super_own_attrs)
  then Ok (ABuiltin key)
  else Raise (AttributeError key).

Definition __getattr__ (self : t) (key : string) : result (Attr datetime) :=
  (present <- Py.contains (_obj self) key ;;
   if present : bool then
     val <- Py.getitem (_obj self) key ;;
     is_time <- (if Str.endswith key "_at"
                 then Re.match_ ISO8601YMD val
                 else Ok false) ;;
     if is_time : bool then
       match val with
       | PyStr s => (d <- dateutil_parse s ;; Ok (ADatetime d))
       | _ => Raise TypeError
       end
     else Ok (AValue val)
   else super_getattr key)%result.

(** What [__init__] stores on the instance. *)
Definition instance_attrs (self : t) : list (string * Attr datetime) :=
  [("_obj", AValue (_obj self))].

(** The names the class body defines. *)
Definition class_attrs : list string := ["__init__"; "__getattr__"].

(** [self.name]: the instance's own attributes, then the class's,
    then what the interpreter gives every instance, and [__getattr__]
    only when all of these fail. *)
Definition getattr (self : t) (name : string) : result (Attr datetime) :=
  match attr_get (instance_attrs self) name with
  | Some a => Ok a
  | None =>
      if existsb (String.eqb name) class_attrs
      then Ok (AMethod "Entity" name)
      else if existsb (String.eqb name) (class_given_attrs ++ object_attrs)
      then Ok (ABuiltin name)
      else __getattr__ self name
  end.

End Access.

End Entity.

(** ** class Order, class Position *)

Module Order.
Record t : Type := { super : Entity.t }.
Definition __init__ (obj : PyVal) : t := {| super := Entity.__init__ obj |}.
End Order.

Module Position.
Record t : Type := { super : Entity.t }.
Definition __init__ (obj : PyVal) : t := {| super := Entity.__init__ obj |}.
End Position.

(** ** class Account *)

Module Account.

Record t : Type := {
  super : Entity.t;
  _api : API.t;
  _account_id : PyVal
}.

Definition __init__ (obj : PyVal) (api : API.t) : result t :=
  (account_id <- Py.getitem obj "id" ;;
   Ok {| super := Entity.__init__ obj; _api := api; _account_id := account_id |})%result.

(** [_fullpath(path, v='1')]; [v] is [None] when the caller leaves it out. *)
Definition _fullpath (self : t) (path : string) (v : option PyVal) : result string :=
  let v := match v with Some given => given | None => PyStr "1" end in
  Py.format "/api/v{}/accounts/{}{}" [v; _account_id self; PyStr path].

Definition get (self : t) (path : string) (data : PyVal) : Net PyVal :=
  (fullpath <- lift (_fullpath self path None) ;;
   API.get (_api self) fullpath data)%net.

Definition post (self : t) (path : string) (data : PyVal) : Net PyVal :=
  (fullpath <- lift (_fullpath self path None) ;;
   API.post (_api self) fullpath data)%net.

Definition delete (self : t) (path : string) (data : PyVal) : Net PyVal :=
  (fullpath <- lift (_fullpath self path None) ;;
   API.delete (_api self) fullpath data)%net.

Definition list_orders (self : t) : Net (list Order.t) :=
  (resp <- get self "/orders" PyNone ;;
   items <- lift (Py.iter resp) ;;
   ret (map Order.__init__ items))%net.

(** The three optional arguments default to [None]; an argument the
    caller leaves out is [None] here and Python's [None] in the body. *)
Definition create_order (self : t) (assert_id shares side type timeinforce : PyVal)
           (limit_price stop_price client_order_id : option PyVal) : Net Order.t :=
  let or_none (given : option PyVal) :=
    match given with Some x => x | None => PyNone end in
  let data := PyDict [
    ("assert_id", assert_id);
    ("shares", shares);
    ("side", side);
    ("type", type);
    ("timeinforce", timeinforce);
    ("limit_price", or_none limit_price);
    ("stop_price", or_none stop_price);
    ("client_order_id", or_none client_order_id)
  ] in
  (resp <- post self "/orders" data ;;
   ret (Order.__init__ resp))%net.

Definition get_order (self : t) (order_id : PyVal) : Net Order.t :=
  (path <- lift (Py.format "/api/v1/{}/orders/{}" [_account_id self; order_id]) ;;
   resp <- API.get (_api self) path PyNone ;;
   ret (Order.__init__ resp))%net.

Definition get_order_by_client_order_id (self : t) (client_order_id : PyVal)
  : Net Order.t :=
  (resp <- get self "/orders" (PyDict [("client_order_id", client_order_id)]) ;;
   ret (Order.__init__ resp))%net.

Definition delete_order (self : t) (order_id : PyVal) : Net unit :=
  (path <- lift (Py.format "/orders/{}" [order_id]) ;;
   _ <- delete self path PyNone ;;
   ret tt)%net.

Definition list_positions (self : t) : Net (list Position.t) :=
  (resp <- get self "/positions" PyNone ;;
   items <- lift (Py.iter resp) ;;
   ret (map Position.__init__ items))%net.

Definition get_position (self : t) (asset_id : PyVal) : Net Position.t :=
  (path <- lift (Py.format "/positions/{}" [asset_id]) ;;
   resp <- get self path PyNone ;;
   ret (Position.__init__ resp))%net.

Section Access.

Context {datetime : Type} (dateutil_parse : string -> result datetime).

(** What the two [__init__] store on the instance. *)
Definition instance_attrs (self : t) : list (string * Attr datetime) :=
  [("_obj", AValue (Entity._obj (super self)));
   ("_api", ATransport (_api self));
   ("_account_id", AValue (_account_id self))].

(** The names the class body defines. *)
Definition class_attrs : list string :=
  ["__init__"; "_fullpath"; "get"; "post"; "delete"; "list_orders";
   "create_order"; "get_order"; "get_order_by_client_order_id";
   "delete_order"; "list_positions"; "get_position"].

(** [self.name]: the instance, the class, the base class, what the
    interpreter gives every instance, and only then the base class's
    [__getattr__]. *)
Definition getattr (self : t) (name : string) : result (Attr datetime) :=
  match attr_get (instance_attrs self) name with
  | Some a => Ok a
  | None =>
      if existsb (String.eqb name) class_attrs
      then Ok (AMethod "Account" name)
      else if existsb (String.eqb name) Entity.class_attrs
      then Ok (AMethod "Entity" name)
      else if existsb (String.eqb name) (class_given_attrs ++ object_attrs)
      then Ok (ABuiltin name)
      else Entity.__getattr__ dateutil_parse (super self) name
  end.

End Access.

End Account.

(** [API.list_accounts], placed after the class it builds. *)
Definition API_list_accounts (self : API.t) : Net (list Account.t) :=
  (resp <- API._request self "GET" "/api/v1/accounts" PyNone ;;
   items <- lift (Py.iter resp) ;;
   lift (rmap (fun o => Account.__init__ o self) items))%net.

(** ** The words of the specification *)

(** A status is in the success range when [raise_for_status] lets it pass. *)
Definition success_status (status : Z) : bool :=
  negb ((400 <=? status) && (status <? 600)).

(** Four digits, hyphen, two digits, hyphen, two digits, the letter T,
    at the start of the text. *)
Definition starts_with_ymd_t (s : string) : bool :=
  match list_ascii_of_string s with
  | y1 :: y2 :: y3 :: y4 :: h1 :: m1 :: m2 :: h2 :: d1 :: d2 :: t :: _ =>
      forallb Re.is_digit [y1; y2; y3; y4; m1; m2; d1; d2]
      && Ascii.eqb h1 "-" && Ascii.eqb h2 "-" && Ascii.eqb t "T"
  | _ => false
  end.

(** A fixed network: every call gets the same answer. *)
Definition always (resp : Response) : Session := fun _ => Ok resp.

Definition client (session : Session) : API.t :=
  API.__init__ [] session "key".

(** The call a request is meant to make: method and URL as given, the
    key in the one header, [data] under [params] for GET and under
    [json] for every other method. *)
Definition expected_call (api : API.t) (method path : string) (data : PyVal) : Call :=
  {| method := method;
     url := API._base_url api ++ path;
     kwargs := [("headers", PyDict [("X-API-KEY", PyStr (API._key api))]);
                (if String.eqb (Str.upper method) "GET" then "params" else "json", data)] |}.

(** The statement of C2 as it is written: every failure status whose
    body is an object with a [code] ends in a domain error carrying
    that body. *)
Definition coded_failure_always_domain_error : Prop :=
  forall (api : API.t) (method path : string) (data : PyVal)
         (resp : Response) (fields : list (string * PyVal)) (code : PyVal),
    API._session api (expected_call api method path data) = Ok resp ->
    success_status (status_code resp) = false ->
    body resp = Some (PyDict fields) ->
    Py.dict_get fields "code" = Some code ->
    exists description,
      fst (run (API._request api method path data))
      = Raise (APIError description (PyDict fields)).

(** The statement of C9 as it is written: whenever the answer passes
    and its body is a JSON array, there are as many accounts as items. *)
Definition every_array_gives_accounts : Prop :=
  forall (api : API.t) (resp : Response) (items : list PyVal),
    API._session api (expected_call api "GET" "/api/v1/accounts" PyNone) = Ok resp ->
    success_status (status_code resp) = true ->
    body resp = Some (PyList items) ->
    exists accounts,
      fst (run (API_list_accounts api)) = Ok accounts
      /\ length accounts = length items.

(** An array item an [Account] can be built from: an object with [id]. *)
Definition has_id (o : PyVal) : Prop :=
  exists fields account_id, o = PyDict fields /\ Py.dict_get fields "id" = Some account_id.

(** What C9 says of one account built from one array item. *)
Definition wraps {datetime : Type} (dateutil_parse : string -> result datetime)
           (api : API.t) (o : PyVal) (a : Account.t) : Prop :=
Entity._obj (Account.super a) = o
/\ Account._api a = api
/\ Py.getitem o "id" = Ok (Account._account_id a)
/\ Account.getattr dateutil_parse a "id" = Ok (AValue (Account._account_id a)).

(** The account-scoped path of the specification's grammar, version 1,
    for the text of an account identifier. *)
Definition scoped_path (account_text subpath : string) : string :=
  "/api/v1/accounts/" ++ account_text ++ subpath.

(** The decimal digits of an integer, with its sign. *)
Definition decimal (z : Z) : string := NilZero.string_of_int (Z.to_int z).

(** How many decimal digits an integer has, the sign left out. *)
Definition digit_count (z : Z) : nat :=
  String.length (NilZero.string_of_uint (N.to_uint (Z.abs_N z))).

(** Whether a value can be turned into text. *)
Definition has_text (v : PyVal) : bool :=
  match Py.str v with
  | Ok _ => true
  | Raise _ => false
  end.

(** The method is GET in any mix of upper and lower case. *)
Definition get_in_any_case (method : string) : bool :=
  match method with
  | String g (String e (String t EmptyString)) =>
      (Ascii.eqb g "G" || Ascii.eqb g "g")
      && (Ascii.eqb e "E" || Ascii.eqb e "e")
      && (Ascii.eqb t "T" || Ascii.eqb t "t")
  | _ => false
  end.


(** The production endpoint. *)
Definition production_url : string := "https://api.alpaca.markets".

(** What a call shows of where it goes and where it carries its data:
    method, URL, the [params] argument and the [json] argument. *)
Definition call_shape (c : Call)
  : string * string * option PyVal * option PyVal :=
  (method c, url c, Py.dict_get (kwargs c) "params", Py.dict_get (kwargs c) "json").

(** ** Sample answers *)

Definition answer (status : Z) (content : option PyVal) : Response :=
  {| status_code := status; body := content |}.

Definition error_without_code : PyVal :=
  PyDict [("message", PyStr "internal error")].

Definition error_without_message : PyVal :=
  PyDict [("code", PyInt 40110000)].

Definition insufficient_buying_power : PyVal :=
  PyDict [("code", PyInt 40110000); ("message", PyStr "insufficient buying power")].

Definition accounts_a1_a2 : PyVal :=
  PyList [PyDict [("id", PyStr "a1")]; PyDict [("id", PyStr "a2")]].

Definition accounts_without_id : PyVal :=
  PyList [PyDict [("name", PyStr "a1")]].


Definition account_acct123 (api : API.t) : Account.t :=
  {| Account.super := Entity.__init__ (PyDict [("id", PyStr "acct123")]);
     Account._api := api;
     Account._account_id := PyStr "acct123" |}.

Definition order_o1 : PyVal :=
  PyDict [("id", PyStr "o1"); ("created_at", PyStr "2018-03-09T19:05:27Z");
          ("filled_at", PyNone); ("status", PyStr "new")].

Definition position_aapl : PyVal :=
  PyDict [("asset_id", PyStr "asset-1"); ("qty", PyInt 10)].

Definition account_numbered (api : API.t) (z : Z) : Account.t :=
  {| Account.super := Entity.__init__ (PyDict [("id", PyInt z)]);
     Account._api := api;
     Account._account_id := PyInt z |}.

Definition any_client : API.t := client (always (answer 200 (Some (PyDict [])))).

(** * Properties *)

Ltac unfold_request :=
  unfold run, API._request, bind, session_request, lift, ret, raise, expected_call;
  cbn [fst snd app].

(** ** Small facts *)

Example upper_get : Str.upper "gEt" = "GET".
Proof. reflexivity. Qed.

Example endswith_at :
  Str.endswith "created_at" "_at" = true /\ Str.endswith "at" "_at" = false.
Proof. split; reflexivity. Qed.

Example of_Z_digits : Str.of_Z (-40) = Ok "-40" /\ Str.of_Z 0 = Ok "0".
Proof. split; reflexivity. Qed.

Example repr_nested :
  Py.repr (PyList [PyInt 1; PyDict [("a", PyNone)]]) = Ok "[1, {'a': None}]".
Proof. reflexivity. Qed.

Example decimal_digits :
  decimal 42 = "42" /\ decimal (-7) = "-7" /\ decimal 0 = "0"
  /\ digit_count 42 = 2%nat /\ digit_count (-7) = 1%nat /\ digit_count 0 = 1%nat.
Proof. repeat split. Qed.

Example get_spellings :
  map get_in_any_case ["GET"; "get"; "Get"; "gEt"; "geT"; "GEt"; "GeT"; "gET"]
  = [true; true; true; true; true; true; true; true]
  /\ map get_in_any_case ["POST"; "GE"; "GETS"; " GET"; ""; "PUT"]
     = [false; false; false; false; false; false].
Proof. split; reflexivity. Qed.

Lemma append_empty (s : string) : s ++ "" = s.
Proof. induction s as [|c s IH]; cbn; [reflexivity | now rewrite IH]. Qed.

Lemma length_append (s1 s2 : string) :
  String.length (s1 ++ s2) = (String.length s1 + String.length s2)%nat.
Proof. induction s1 as [|c s1 IH]; cbn; [reflexivity | now rewrite IH]. Qed.

Lemma drop_append (p s : string) : Str.drop (String.length p) (p ++ s) = s.
Proof. induction p as [|c p IH]; cbn; [reflexivity | exact IH]. Qed.

Lemma drop_splits (n : nat) (s : string) : exists p, s = p ++ Str.drop n s.
Proof.
  revert s. induction n as [|n IH]; intros s.
  - now exists "".
  - destruct s as [|c s]; [now exists ""|].
    destruct (IH s) as [p Hp]. exists (String c p). cbn. now rewrite <- Hp.
Qed.

(** [endswith] holds exactly of the texts that are some text followed
    by the suffix. *)
Lemma endswith_iff (s suffix : string) :
  Str.endswith s suffix = true <-> exists p, s = p ++ suffix.
Proof.
  unfold Str.endswith. split.
  - intros H. apply andb_prop in H as [_ H]. apply String.eqb_eq in H.
    destruct (drop_splits (String.length s - String.length suffix) s) as [p Hp].
    exists p. now rewrite H in Hp.
  - intros [p ->]. rewrite length_append. apply andb_true_intro. split.
    + apply Nat.leb_le. lia.
    + replace (String.length p + String.length suffix - String.length suffix)%nat
        with (String.length p) by lia.
      rewrite drop_append. apply String.eqb_refl.
Qed.

Lemma upper_char_G (c : ascii) :
  Ascii.eqb (Str.upper_char c) "G" = Ascii.eqb c "G" || Ascii.eqb c "g".
Proof. destruct c as [[] [] [] [] [] [] [] []]; reflexivity. Qed.

Lemma upper_char_E (c : ascii) :
  Ascii.eqb (Str.upper_char c) "E" = Ascii.eqb c "E" || Ascii.eqb c "e".
Proof. destruct c as [[] [] [] [] [] [] [] []]; reflexivity. Qed.

Lemma upper_char_T (c : ascii) :
  Ascii.eqb (Str.upper_char c) "T" = Ascii.eqb c "T" || Ascii.eqb c "t".
Proof. destruct c as [[] [] [] [] [] [] [] []]; reflexivity. Qed.

(** [method.upper() == 'GET'] holds exactly of the eight spellings of
    GET. *)
Lemma upper_is_get (method : string) :
  String.eqb (Str.upper method) "GET" = get_in_any_case method.
Proof.
  destruct method as [|g [|e [|t [|x rest]]]]; try reflexivity;
    cbn - [Ascii.eqb Str.upper_char];
    rewrite ?upper_char_G, ?upper_char_E, ?upper_char_T.
  all: repeat match goal with
              | |- context [if ?b then _ else _] => destruct b
              end; reflexivity.
Qed.

Lemma not_dunder_not_among (names : list string) (name : string) :
  Forall (fun n => Str.is_dunder n = true) names ->
  Str.is_dunder name = false ->
  existsb (String.eqb name) names = false.
Proof.
  intros Hnames Hname.
  induction Hnames as [|n names Hn _ IH]; [reflexivity|].
  cbn. rewrite IH, orb_false_r.
  destruct (String.eqb name n) eqn:Heq; [|reflexivity].
  apply String.eqb_eq in Heq. congruence.
Qed.

Lemma attr_get_absent {A} (attrs : list (string * A)) (name : string) :
  existsb (String.eqb name) (map fst attrs) = false -> attr_get attrs name = None.
Proof.
  induction attrs as [|[k a] rest IH]; cbn; [reflexivity|].
  intros H. apply orb_false_elim in H as [Hk Hrest].
  rewrite String.eqb_sym, Hk. now apply IH.
Qed.

Lemma object_attrs_dunder : Forall (fun n => Str.is_dunder n = true) object_attrs.
Proof. repeat constructor. Qed.

Lemma class_given_attrs_dunder :
  Forall (fun n => Str.is_dunder n = true) class_given_attrs.
Proof. repeat constructor. Qed.


Lemma success_status_passes (resp : Response) :
  success_status (status_code resp) = true -> raise_for_status resp = Ok tt.
Proof.
  unfold success_status, raise_for_status.
  destruct ((400 <=? status_code resp) && (status_code resp <? 600)); cbn; congruence.
Qed.

Lemma failure_status_raises (resp : Response) :
  success_status (status_code resp) = false ->
  raise_for_status resp = Raise (HTTPError (status_code resp)).
Proof.
  unfold success_status, raise_for_status.
  destruct ((400 <=? status_code resp) && (status_code resp <? 600)); cbn; congruence.
Qed.

(** ** The transport *)

(** A request makes exactly one call, the expected one, whatever comes back. *)
Lemma request_log (api : API.t) (method path : string) (data : PyVal) :
  snd (run (API._request api method path data)) = [expected_call api method path data].
Proof.
  unfold_request.
  destruct (String.eqb (Str.upper method) "GET"); cbn;
    (match goal with |- context [API._session api ?c] =>
       destruct (API._session api c) as [resp|e] end; [|reflexivity]);
    (destruct (raise_for_status resp) as [u|[]]; try reflexivity);
    (destruct (json resp) as [error|e]; [|reflexivity]);
    (destruct (Py.contains error "code") as [[]|e]; try reflexivity);
    destruct (APIError_init error); reflexivity.
Qed.

(** The outcome of a request depends on the session only through its
    answer to the expected call. *)
Lemma request_outcome (api : API.t) (method path : string) (data : PyVal) :
  fst (run (API._request api method path data)) =
  (resp <- API._session api (expected_call api method path data) ;;
   _ <- match raise_for_status resp with
        | Ok _ => Ok tt
        | Raise (HTTPError _) =>
            error <- json resp ;;
            has_code <- Py.contains error "code" ;;
            if has_code : bool
            then (exc <- APIError_init error ;; Raise exc)
            else Ok tt
        | Raise e => Raise e
        end ;;
   json resp)%result.
Proof.
  unfold_request.
  destruct (String.eqb (Str.upper method) "GET"); cbn;
    (match goal with |- context [API._session api ?c] =>
       destruct (API._session api c) as [resp|e] end; [|reflexivity]); cbn;
    (destruct (raise_for_status resp) as [u|[]]; cbn; try reflexivity;
     try (destruct (json resp); reflexivity));
    (destruct (json resp) as [error|e]; [|reflexivity]); cbn;
    (destruct (Py.contains error "code") as [[]|e]; try reflexivity); cbn;
    destruct (APIError_init error); reflexivity.
Qed.

(** A failure status whose body is a JSON object without [code]: the
    handler raises nothing and the body is returned like a success. *)
Lemma request_failure_without_code
      (api : API.t) (method path : string) (data : PyVal)
      (resp : Response) (fields : list (string * PyVal)) :
  API._session api (expected_call api method path data) = Ok resp ->
  success_status (status_code resp) = false ->
  body resp = Some (PyDict fields) ->
  Py.dict_get fields "code" = None ->
  fst (run (API._request api method path data)) = Ok (PyDict fields).
Proof.
  intros Hresp Hstatus Hbody Hcode.
  rewrite request_outcome, Hresp. cbn [rbind].
  rewrite (failure_status_raises _ Hstatus).
  unfold json. rewrite Hbody. cbn. now rewrite Hcode.
Qed.

(** A failure status whose body is not JSON: decoding the body inside
    the handler raises, and that decoding error is what leaves. *)
Lemma request_failure_undecodable
      (api : API.t) (method path : string) (data : PyVal) (resp : Response) :
  API._session api (expected_call api method path data) = Ok resp ->
  success_status (status_code resp) = false ->
  body resp = None ->
  fst (run (API._request api method path data)) = Raise JSONDecodeError.
Proof.
  intros Hresp Hstatus Hbody.
  rewrite request_outcome, Hresp. cbn [rbind].
  rewrite (failure_status_raises _ Hstatus).
  unfold json. now rewrite Hbody.
Qed.

(** A status that passes [raise_for_status]: the decoded body is returned. *)
Lemma request_success
      (api : API.t) (method path : string) (data : PyVal) (resp : Response) :
  API._session api (expected_call api method path data) = Ok resp ->
  success_status (status_code resp) = true ->
  fst (run (API._request api method path data)) = json resp.
Proof.
  intros Hresp Hstatus.
  rewrite request_outcome, Hresp. cbn [rbind].
  rewrite (success_status_passes _ Hstatus). cbn.
  now destruct (json resp).
Qed.

(** C1.  What [API._request] does where the claim expects a transport
    error.  On a status-500 response whose body is the JSON object with
    the single field [message], no exception leaves the request: the
    error body comes back as the result.  On a status-500 response whose
    body is not JSON, the exception that leaves is the decoding error of
    the body, not the HTTP failure. *)
Theorem request_status_500_outcomes :
  success_status 500 = false
  /\ Py.contains error_without_code "code" = Ok false
  /\ fst (run (API._request (client (always (answer 500 (Some error_without_code))))
                            "GET" "/api/v1/accounts" PyNone))
     = Ok error_without_code
  /\ fst (run (API._request (client (always (answer 500 None)))
                            "GET" "/api/v1/accounts" PyNone))
     = Raise JSONDecodeError.
Proof. repeat split; reflexivity. Qed.

(** C2, as written, fails: a status-422 response whose body is the
    object with the single field [code] makes [APIError(error)] look up
    [message], and the request ends in [KeyError], not in a domain
    error. *)
Lemma coded_failure_without_message :
  fst (run (API._request (client (always (answer 422 (Some error_without_message))))
                         "POST" "/api/v1/accounts/a/orders" PyNone))
  = Raise (KeyError "message")
  /\ ~ coded_failure_always_domain_error.
Proof.
  split; [reflexivity|].
  intros claim.
  destruct (claim (client (always (answer 422 (Some error_without_message))))
                  "POST" "/api/v1/accounts/a/orders" PyNone
                  (answer 422 (Some error_without_message))
                  [("code", PyInt 40110000)] (PyInt 40110000)
                  eq_refl eq_refl eq_refl eq_refl) as [description H].
  cbv in H. discriminate H.
Qed.

(** C2, amended.  For every response whose status [raise_for_status]
    rejects and whose body is a JSON object with both a [code] and a
    [message] field, the request raises [APIError]: its argument is the
    [message], it keeps the body, and its [code] property is the body's
    [code]. *)
Theorem request_domain_error
        (api : API.t) (method path : string) (data : PyVal)
        (resp : Response) (fields : list (string * PyVal)) (code message : PyVal) :
  API._session api (expected_call api method path data) = Ok resp ->
  success_status (status_code resp) = false ->
  body resp = Some (PyDict fields) ->
  Py.dict_get fields "code" = Some code ->
  Py.dict_get fields "message" = Some message ->
  fst (run (API._request api method path data)) = Raise (APIError message (PyDict fields))
  /\ APIError_code (APIError message (PyDict fields)) = Ok code.
Proof.
  intros Hresp Hstatus Hbody Hcode Hmessage. split.
  - rewrite request_outcome, Hresp. cbn [rbind].
    rewrite (failure_status_raises _ Hstatus).
    unfold json. rewrite Hbody. cbn. rewrite Hcode. cbn.
    unfold APIError_init. cbn. now rewrite Hmessage.
  - cbn. now rewrite Hcode.
Qed.

Lemma request_domain_error_422 :
  fst (run (API._request (client (always (answer 422 (Some insufficient_buying_power))))
                         "POST" "/api/v1/accounts/a/orders" PyNone))
  = Raise (APIError (PyStr "insufficient buying power") insufficient_buying_power)
  /\ APIError_code (APIError (PyStr "insufficient buying power") insufficient_buying_power)
     = Ok (PyInt 40110000).
Proof.
  apply (request_domain_error
           (client (always (answer 422 (Some insufficient_buying_power))))
           "POST" "/api/v1/accounts/a/orders" PyNone
           (answer 422 (Some insufficient_buying_power))
           [("code", PyInt 40110000); ("message", PyStr "insufficient buying power")]
           (PyInt 40110000) (PyStr "insufficient buying power"));
    reflexivity.
Defined.

(** C5.  Every request makes one call of the session.  Its keyword
    arguments are the headers and one more: [data] under [params] when
    the method is GET in any mix of upper and lower case, [data] under
    [json] for every other method.  So a GET carries [data] as query
    parameters and under no keyword that makes a body, and another
    method carries it as the whole JSON body and not as query
    parameters. *)
Theorem request_data_placement (api : API.t) (method path : string) (data : PyVal) :
  exists call,
    snd (run (API._request api method path data)) = [call]
    /\ Requests.method call = method
    /\ url call = API._base_url api ++ path
    /\ kwargs call
       = [("headers", PyDict [("X-API-KEY", PyStr (API._key api))]);
          (if get_in_any_case method then "params" else "json", data)]
    /\ Py.dict_get (kwargs call) "params"
       = (if get_in_any_case method then Some data else None)
    /\ Py.dict_get (kwargs call) "json"
       = (if get_in_any_case method then None else Some data)
    /\ Py.dict_get (kwargs call) "data" = None
    /\ Py.dict_get (kwargs call) "files" = None.
Proof.
  exists (expected_call api method path data).
  split; [apply request_log|].
  unfold expected_call; cbn. rewrite upper_is_get.
  destruct (get_in_any_case method); cbn; repeat split; reflexivity.
Qed.

Example request_get_any_case (api : API.t) (data : PyVal) :
  map kwargs (snd (run (API._request api "get" "/x" data)))
  = [[("headers", PyDict [("X-API-KEY", PyStr (API._key api))]); ("params", data)]]
  /\ map kwargs (snd (run (API._request api "Patch" "/x" data)))
  = [[("headers", PyDict [("X-API-KEY", PyStr (API._key api))]); ("json", data)]].
Proof. split; rewrite request_log; reflexivity. Qed.

(** ** The entity wrapper *)

(** The compiled pattern accepts exactly the texts the specification
    describes word by word. *)
Lemma iso8601ymd_matches (s : string) :
  Re.match_here ISO8601YMD s = starts_with_ymd_t s.
Proof.
  unfold starts_with_ymd_t, ISO8601YMD.
  do 11 (destruct s as [|? s]; cbn - [Re.is_digit Ascii.eqb];
         [repeat match goal with
                 | |- context [if ?b then _ else _] => destruct b
                 end; reflexivity|]).
  repeat (match goal with
          | H : Re.is_digit ?c = _ |- context [Re.is_digit ?c] => rewrite H
          | H : Ascii.eqb ?a ?b = _ |- context [Ascii.eqb ?a ?b] => rewrite H
          | |- context [Re.is_digit ?c] => destruct (Re.is_digit c) eqn:?
          | |- context [Ascii.eqb ?a ?b] => destruct (Ascii.eqb a b) eqn:?
          end; cbn - [Re.is_digit Ascii.eqb]); reflexivity.
Qed.

Section EntityAccess.

Context {datetime : Type} (dateutil_parse : string -> result datetime).

(** A present field whose name ends in [_at] and whose value is a text
    starting like a date: the outcome of the parser on that text. *)
Lemma getattr_timestamp
      (self : Entity.t) (fields : list (string * PyVal)) (key s : string) :
  Entity._obj self = PyDict fields ->
  Py.dict_get fields key = Some (PyStr s) ->
  Str.endswith key "_at" = true ->
  starts_with_ymd_t s = true ->
  Entity.__getattr__ dateutil_parse self key
  = (d <- dateutil_parse s ;; Ok (ADatetime d))%result.
Proof.
  intros Hobj Hget Hsuffix Hdate.
  unfold Entity.__getattr__. rewrite Hobj.
  cbn [Py.contains Py.getitem rbind]. rewrite Hget. cbn [rbind].
  rewrite Hsuffix. cbn [Re.match_ rbind].
  now rewrite iso8601ymd_matches, Hdate.
Qed.

(** A present field whose name ends in [_at] and whose value is a text
    that does not start like a date: the text itself. *)
Lemma getattr_at_other_text
      (self : Entity.t) (fields : list (string * PyVal)) (key s : string) :
  Entity._obj self = PyDict fields ->
  Py.dict_get fields key = Some (PyStr s) ->
  Str.endswith key "_at" = true ->
  starts_with_ymd_t s = false ->
  Entity.__getattr__ dateutil_parse self key = Ok (AValue (PyStr s)).
Proof.
  intros Hobj Hget Hsuffix Hdate.
  unfold Entity.__getattr__. rewrite Hobj.
  cbn [Py.contains Py.getitem rbind]. rewrite Hget. cbn [rbind].
  rewrite Hsuffix. cbn [Re.match_ rbind].
  now rewrite iso8601ymd_matches, Hdate.
Qed.

(** A present field whose name does not end in [_at]: its value. *)
Lemma getattr_plain_field
      (self : Entity.t) (fields : list (string * PyVal)) (key : string) (val : PyVal) :
  Entity._obj self = PyDict fields ->
  Py.dict_get fields key = Some val ->
  Str.endswith key "_at" = false ->
  Entity.__getattr__ dateutil_parse self key = Ok (AValue val).
Proof.
  intros Hobj Hget Hsuffix.
  unfold Entity.__getattr__. rewrite Hobj. cbn. rewrite Hget. cbn.
  now rewrite Hsuffix.
Qed.

(** A present field whose name ends in [_at] and whose value is not a
    text: the pattern is matched against it all the same, and the
    match raises. *)
Lemma getattr_at_not_text
      (self : Entity.t) (fields : list (string * PyVal)) (key : string) (val : PyVal) :
  Entity._obj self = PyDict fields ->
  Py.dict_get fields key = Some val ->
  Str.endswith key "_at" = true ->
  (forall s, val <> PyStr s) ->
  Entity.__getattr__ dateutil_parse self key = Raise TypeError.
Proof.
  intros Hobj Hget Hsuffix Hval.
  unfold Entity.__getattr__. rewrite Hobj. cbn. rewrite Hget. cbn.
  rewrite Hsuffix.
  destruct val; try reflexivity. now destruct (Hval s).
Qed.

(** C3.  Field access on an order whose [filled_at] is null, as an
    unfilled order has it: the name ends in [_at], so the pattern is
    matched against the value, and matching a value that is not a
    text raises [TypeError]; the raw value is not returned.  The same
    happens for a number under such a name.  *)
Theorem getattr_null_timestamp :
  Entity.__getattr__ dateutil_parse
    (Entity.__init__ (PyDict [("id", PyStr "o1"); ("filled_at", PyNone)])) "filled_at"
  = Raise TypeError
  /\ Entity.__getattr__ dateutil_parse
       (Entity.__init__ (PyDict [("expires_at", PyInt 1530000000)])) "expires_at"
     = Raise TypeError.
Proof. split; reflexivity. Qed.


End EntityAccess.



Example getattr_created_at :
  Entity.__getattr__ (fun s : string => Ok s)
    (Entity.__init__ (PyDict [("created_at", PyStr "2018-03-09T19:05:27Z")])) "created_at"
  = Ok (ADatetime "2018-03-09T19:05:27Z")
  /\ Entity.__getattr__ (fun s : string => Ok s)
       (Entity.__init__ (PyDict [("created_at", PyStr "yesterday")])) "created_at"
     = Ok (AValue (PyStr "yesterday")).
Proof. split; reflexivity. Qed.

(** ** Computations *)

Lemma run_lift_bind {A B} (a : A) (k : A -> Net B) :
  run (bind (lift (Ok a)) k) = run (k a).
Proof. reflexivity. Qed.

Lemma run_bind_ret {A B} (m : Net A) (f : A -> B) :
  run (bind m (fun a => ret (f a)))
  = ((a <- fst (run m) ;; Ok (f a))%result, snd (run m)).
Proof.
  unfold run, bind, ret. now destruct (m []) as [[a|e] log].
Qed.

Lemma run_lift_raise {A B} (e : exn) (k : A -> Net B) :
  run (bind (lift (Raise e)) k) = (Raise e, []).
Proof. reflexivity. Qed.

(** ** Resource paths *)

(** The path is made of the text of the version and the text of the
    identifier, in that order, and is not made when either has none. *)
Lemma fullpath_format (self : Account.t) (path : string) (v : option PyVal) :
  Account._fullpath self path v
  = (version_text <- Py.str (match v with Some given => given | None => PyStr "1" end) ;;
     account_text <- Py.str (Account._account_id self) ;;
     Ok ("/api/v" ++ version_text ++ "/accounts/" ++ account_text ++ path))%result.
Proof.
  unfold Account._fullpath. cbn - [Py.str].
  destruct (Py.str match v with Some given => given | None => PyStr "1" end);
    cbn - [Py.str]; [|reflexivity].
  destruct (Py.str (Account._account_id self)); cbn; [|reflexivity].
  now rewrite append_empty.
Qed.

Lemma fullpath_ok (self : Account.t) (path account_text : string) :
  Py.str (Account._account_id self) = Ok account_text ->
  Account._fullpath self path None = Ok (scoped_path account_text path).
Proof. intros H. rewrite fullpath_format. cbn [Py.str rbind]. now rewrite H. Qed.

Lemma fullpath_raises (self : Account.t) (path : string) (e : exn) :
  Py.str (Account._account_id self) = Raise e ->
  Account._fullpath self path None = Raise e.
Proof. intros H. rewrite fullpath_format. cbn [Py.str rbind]. now rewrite H. Qed.

(** C7.  The account-scoped path is [/api/v], the version, [/accounts/],
    the account identifier and the sub-path, one after the other, and
    the version is 1 when the caller gives none.  An identifier or a
    version that is a text goes in as it is.  An identifier that is an
    integer goes in as its decimal digits, with a minus sign when it is
    negative; when it has more than 4300 digits no path is made and the
    call raises [ValueError].  A null identifier goes in as [None], the
    booleans as [True] and [False].  The account built from the record
    with [id] acct123 maps [/orders] to
    [/api/v1/accounts/acct123/orders], and the one with the number 42
    as [id] to [/api/v1/accounts/42/orders]. *)
Theorem fullpath_grammar :
  (forall (record : Entity.t) (api : API.t) (account_id version path : string),
      Account._fullpath
        {| Account.super := record; Account._api := api;
           Account._account_id := PyStr account_id |} path (Some (PyStr version))
      = Ok ("/api/v" ++ version ++ "/accounts/" ++ account_id ++ path))
  /\ (forall (record : Entity.t) (api : API.t) (account_id path : string),
         Account._fullpath
           {| Account.super := record; Account._api := api;
              Account._account_id := PyStr account_id |} path None
         = Ok ("/api/v1/accounts/" ++ account_id ++ path))
  /\ (forall (record : Entity.t) (api : API.t) (z : Z) (path : string),
         Account._fullpath
           {| Account.super := record; Account._api := api;
              Account._account_id := PyInt z |} path None
         = if (digit_count z <=? 4300)%nat
           then Ok ("/api/v1/accounts/" ++ decimal z ++ path)
           else Raise ValueError)
  /\ (forall (record : Entity.t) (api : API.t) (z : Z) (path : string),
         Account._fullpath
           {| Account.super := record; Account._api := api;
              Account._account_id := PyStr "acct123" |} path (Some (PyInt z))
         = if (digit_count z <=? 4300)%nat
           then Ok ("/api/v" ++ decimal z ++ "/accounts/acct123" ++ path)
           else Raise ValueError)
  /\ (forall (record : Entity.t) (api : API.t) (path : string),
         Account._fullpath
           {| Account.super := record; Account._api := api;
              Account._account_id := PyNone |} path None
         = Ok ("/api/v1/accounts/None" ++ path)
         /\ Account._fullpath
              {| Account.super := record; Account._api := api;
                 Account._account_id := PyBool true |} path None
            = Ok ("/api/v1/accounts/True" ++ path)
         /\ Account._fullpath
              {| Account.super := record; Account._api := api;
                 Account._account_id := PyBool false |} path None
            = Ok ("/api/v1/accounts/False" ++ path))
  /\ (forall api : API.t,
         (self <- Account.__init__ (PyDict [("id", PyStr "acct123")]) api ;;
          Account._fullpath self "/orders" None)%result
         = Ok "/api/v1/accounts/acct123/orders")
  /\ (forall api : API.t,
         (self <- Account.__init__ (PyDict [("id", PyInt 42)]) api ;;
          Account._fullpath self "/orders" None)%result
         = Ok "/api/v1/accounts/42/orders"
         /\ (self <- Account.__init__ (PyDict [("id", PyInt (-7))]) api ;;
             Account._fullpath self "/positions" (Some (PyInt 2)))%result
            = Ok "/api/v2/accounts/-7/positions").
Proof.
  repeat split; intros; try reflexivity.
  - rewrite fullpath_format. reflexivity.
  - rewrite fullpath_format. reflexivity.
  - rewrite fullpath_format. cbn [Py.str Py.repr rbind Account._account_id].
    unfold Str.of_Z, digit_count, decimal, Str.int_max_str_digits.
    now destruct (_ <=? _)%nat.
  - rewrite fullpath_format. cbn [Py.str Py.repr rbind Account._account_id].
    unfold Str.of_Z, digit_count, decimal, Str.int_max_str_digits.
    now destruct (_ <=? _)%nat.
  - rewrite fullpath_format. reflexivity.
  - rewrite fullpath_format. reflexivity.
  - rewrite fullpath_format. reflexivity.
Qed.

(** ** Orders *)

(** C6.  The dictionary [create_order] builds has the keys
    [limit_price], [stop_price] and [client_order_id] whether or not
    the caller supplied them: an argument left out is there with the
    value [None], which is JSON's null.  When the account identifier
    has a text, [create_order] makes one call, a POST to the scoped
    [/orders] path whose [json] argument is that dictionary, with no
    query parameters; when it has none, the path cannot be made and no
    call is made at all. *)
Theorem create_order_sends_nulls
        (self : Account.t) (assert_id shares side type timeinforce : PyVal)
        (limit_price stop_price client_order_id : option PyVal) :
  exists data,
    Py.dict_get data "limit_price"
    = Some (match limit_price with Some given => given | None => PyNone end)
    /\ Py.dict_get data "stop_price"
       = Some (match stop_price with Some given => given | None => PyNone end)
    /\ Py.dict_get data "client_order_id"
       = Some (match client_order_id with Some given => given | None => PyNone end)
    /\ match Py.str (Account._account_id self) with
       | Ok account_text =>
           exists call,
             snd (run (Account.create_order self assert_id shares side type timeinforce
                                            limit_price stop_price client_order_id))
             = [call]
             /\ method call = "POST"
             /\ url call = API._base_url (Account._api self) ++ "/api/v1/accounts/"
                           ++ account_text ++ "/orders"
             /\ kwargs call
                = [("headers", PyDict [("X-API-KEY", PyStr (API._key (Account._api self)))]);
                   ("json", PyDict data)]
             /\ Py.dict_get (kwargs call) "json" = Some (PyDict data)
             /\ Py.dict_get (kwargs call) "params" = None
       | Raise e =>
           run (Account.create_order self assert_id shares side type timeinforce
                                     limit_price stop_price client_order_id)
           = (Raise e, [])
       end.
Proof.
  unfold Account.create_order, Account.post, API.post.
  eexists. split; [|split; [|split]]; [| | |].
  4: { rewrite run_bind_ret.
       destruct (Py.str (Account._account_id self)) as [account_text|e] eqn:Hid.
       - rewrite (fullpath_ok _ _ _ Hid), run_lift_bind, request_log. cbn [snd].
         eexists. split; [reflexivity|]. cbn. repeat split; reflexivity.
       - rewrite (fullpath_raises _ _ _ Hid), run_lift_raise. reflexivity. }
  all: reflexivity.
Qed.

Example create_order_market_body :
  map kwargs
      (snd (run (Account.create_order (account_acct123 any_client)
                   (PyStr "asset-1") (PyInt 10) (PyStr "buy")
                   (PyStr "market") (PyStr "day") None None None)))
  = [[("headers", PyDict [("X-API-KEY", PyStr "key")]);
      ("json", PyDict [("assert_id", PyStr "asset-1"); ("shares", PyInt 10);
                       ("side", PyStr "buy"); ("type", PyStr "market");
                       ("timeinforce", PyStr "day"); ("limit_price", PyNone);
                       ("stop_price", PyNone); ("client_order_id", PyNone)])]].
Proof. reflexivity. Qed.

Lemma get_order_format (self : Account.t) (order_id : PyVal) :
  Py.format "/api/v1/{}/orders/{}" [Account._account_id self; order_id]
  = (account_text <- Py.str (Account._account_id self) ;;
     order_text <- Py.str order_id ;;
     Ok ("/api/v1/" ++ account_text ++ "/orders/" ++ order_text))%result.
Proof.
  cbn - [Py.str].
  destruct (Py.str (Account._account_id self)); cbn - [Py.str]; [|reflexivity].
  destruct (Py.str order_id); cbn; [|reflexivity].
  now rewrite append_empty.
Qed.



Example get_order_url :
  map url
      (snd (run (a <- lift (Account.__init__ (PyDict [("id", PyStr "acct123")])
                                             (client (always {| status_code := 200;
                                                                body := Some (PyDict []) |}))) ;;
                 Account.get_order a (PyStr "o1"))%net))
  = ["https://api.alpaca.markets/api/v1/acct123/orders/o1"].
Proof. reflexivity. Qed.

(** ** Accounts *)

Lemma list_accounts_run (api : API.t) :
  run (API_list_accounts api)
  = ((resp <- fst (run (API._request api "GET" "/api/v1/accounts" PyNone)) ;;
      items <- Py.iter resp ;;
      rmap (fun o => Account.__init__ o api) items)%result,
     snd (run (API._request api "GET" "/api/v1/accounts" PyNone))).
Proof.
  unfold API_list_accounts, run, bind, lift.
  destruct (API._request api "GET" "/api/v1/accounts" PyNone []) as [[resp|e] log];
    [|reflexivity].
  cbn. now destruct (Py.iter resp).
Qed.

(** C9, as written, fails: a status-200 answer whose body is an array
    with an object that has no [id] makes [Account(o, self)] raise
    [KeyError], and no sequence of accounts is returned. *)
Lemma list_accounts_item_without_id :
  fst (run (API_list_accounts (client (always (answer 200 (Some accounts_without_id))))))
  = Raise (KeyError "id")
  /\ ~ every_array_gives_accounts.
Proof.
  split; [reflexivity|].
  intros claim.
  destruct (claim (client (always (answer 200 (Some accounts_without_id))))
                  (answer 200 (Some accounts_without_id))
                  [PyDict [("name", PyStr "a1")]]
                  eq_refl eq_refl eq_refl) as [accounts [H _]].
  cbv in H. discriminate H.
Qed.

Section Accounts.

Context {datetime : Type} (dateutil_parse : string -> result datetime).

Lemma account_init_wraps (api : API.t) (o : PyVal) :
has_id o -> exists a, Account.__init__ o api = Ok a /\ wraps dateutil_parse api o a.
Proof.
intros [fields [account_id [-> Hid]]].
unfold Account.__init__. cbn. rewrite Hid. cbn.
eexists. split; [reflexivity|].
unfold wraps. cbn [Account.super Account._api Account._account_id Entity._obj Entity.__init__].
repeat split.
- cbn. now rewrite Hid.
- unfold Account.getattr. cbn [attr_get Account.instance_attrs].
  cbn - [Entity.__getattr__].
  now apply getattr_plain_field with (fields := fields).
Qed.

Lemma rmap_accounts (api : API.t) (items : list PyVal) :
Forall has_id items ->
exists accounts,
  rmap (fun o => Account.__init__ o api) items = Ok accounts
  /\ Forall2 (wraps dateutil_parse api) items accounts.
Proof.
induction 1 as [|o items Ho _ [accounts [Hmap Hall]]].
- exists []. split; [reflexivity | constructor].
- destruct (account_init_wraps api o Ho) as [a [Ha Hw]].
  exists (a :: accounts). cbn. rewrite Ha. cbn. rewrite Hmap. cbn.
  split; [reflexivity | now constructor].
Qed.

(** C9, amended.  When the answer to [GET /api/v1/accounts] passes
  [raise_for_status] and its body is a JSON array whose items are all
  objects with an [id] field, [list_accounts] returns one account per
  item, in the order of the array: each wraps its item, refers to the
  client, holds the item's [id], and gives that [id] on field
  access. *)
Theorem list_accounts_in_order
      (api : API.t) (resp : Response) (items : list PyVal) :
API._session api (expected_call api "GET" "/api/v1/accounts" PyNone) = Ok resp ->
success_status (status_code resp) = true ->
body resp = Some (PyList items) ->
Forall has_id items ->
exists accounts,
  fst (run (API_list_accounts api)) = Ok accounts
  /\ length accounts = length items
  /\ map (fun a => Entity._obj (Account.super a)) accounts = items
  /\ Forall2 (wraps dateutil_parse api) items accounts.
Proof.
intros Hresp Hstatus Hbody Hitems.
destruct (rmap_accounts api items Hitems) as [accounts [Hmap Hall]].
exists accounts.
rewrite list_accounts_run. cbn [fst].
rewrite (request_success _ _ _ _ _ Hresp Hstatus).
unfold json. rewrite Hbody. cbn. rewrite Hmap.
split; [reflexivity|].
split; [symmetry; eapply Forall2_length; eassumption|].
split; [|assumption].
clear - Hall. induction Hall as [|o a items accounts [Ho _] _ IH]; cbn;
  [reflexivity | now rewrite Ho, IH].
Qed.

End Accounts.

Lemma list_accounts_a1_a2 :
  exists accounts,
    fst (run (API_list_accounts (client (always (answer 200 (Some accounts_a1_a2))))))
    = Ok accounts
    /\ length accounts = 2%nat
    /\ map (fun a => Account.getattr (fun s : string => Ok s) a "id") accounts
       = [Ok (AValue (PyStr "a1")); Ok (AValue (PyStr "a2"))].
Proof.
  destruct (list_accounts_in_order (fun s : string => Ok s)
              (client (always (answer 200 (Some accounts_a1_a2))))
              (answer 200 (Some accounts_a1_a2))
              [PyDict [("id", PyStr "a1")]; PyDict [("id", PyStr "a2")]]
              eq_refl eq_refl eq_refl) as [accounts [Hrun [Hlen [Hobj Hall]]]].
  - repeat constructor; eexists; eexists; split; reflexivity.
  - exists accounts. split; [exact Hrun|]. split; [exact Hlen|].
    cbv in Hrun. injection Hrun as <-. reflexivity.
Defined.

(** ** Names the wrapper already has *)


(** The same failure seen from [create_order]: the domain error passes
    through [post] unchanged. *)
Example create_order_insufficient_buying_power :
  fst (run (a <- lift (Account.__init__
                         (PyDict [("id", PyStr "acct123")])
                         (client (always (answer 422 (Some insufficient_buying_power))))) ;;
            Account.create_order a (PyStr "asset-1") (PyInt 10) (PyStr "buy")
                                 (PyStr "market") (PyStr "day") None None None)%net)
  = Raise (APIError (PyStr "insufficient buying power") insufficient_buying_power).
Proof. reflexivity. Qed.

(** * Further properties of the client *)

(** ** The transport, beyond the cases above *)

(** Every request carries the key in the one header [X-API-KEY], and
    the session gets no keyword argument besides [headers] and the one
    that holds [data]. *)
Theorem request_sends_key_header
        (api : API.t) (method path : string) (data : PyVal) :
  map kwargs (snd (run (API._request api method path data)))
  = [[("headers", PyDict [("X-API-KEY", PyStr (API._key api))]);
      (if String.eqb (Str.upper method) "GET" then "params" else "json", data)]]
  /\ map Requests.method (snd (run (API._request api method path data))) = [method].
Proof. rewrite request_log. split; reflexivity. Qed.

(** When the status is not a 4xx or 5xx one, the request returns the
    decoded body whatever its shape, and raises the decoding error when
    the body is not JSON, as a 204 answer without content is. *)
Theorem request_passing_status
        (api : API.t) (method path : string) (data : PyVal) (resp : Response) :
  API._session api (expected_call api method path data) = Ok resp ->
  success_status (status_code resp) = true ->
  fst (run (API._request api method path data))
  = match body resp with
    | Some v => Ok v
    | None => Raise JSONDecodeError
    end.
Proof.
  intros Hresp Hstatus.
  rewrite request_outcome, Hresp. cbn [rbind].
  rewrite (success_status_passes _ Hstatus). cbn. unfold json.
  now destruct (body resp).
Qed.

Lemma request_passing_status_204 :
  fst (run (API._request (client (always (answer 204 None))) "DELETE" "/x" PyNone))
  = Raise JSONDecodeError.
Proof.
  apply (request_passing_status (client (always (answer 204 None))) "DELETE" "/x" PyNone
           (answer 204 None)); reflexivity.
Defined.

(** A failure of the session itself, such as a refused connection,
    leaves the request unchanged, after the one call. *)
Theorem request_network_failure
        (api : API.t) (method path : string) (data : PyVal) (e : exn) :
  API._session api (expected_call api method path data) = Raise e ->
  run (API._request api method path data)
  = (Raise e, [expected_call api method path data]).
Proof.
  intros Hfail.
  rewrite (surjective_pairing (run (API._request api method path data))).
  now rewrite request_outcome, request_log, Hfail.
Qed.

Lemma request_network_failure_refused :
  run (API._request (client (fun _ => Raise ConnectionError)) "GET" "/api/v1/accounts" PyNone)
  = (Raise ConnectionError,
     [expected_call (client (fun _ => Raise ConnectionError)) "GET" "/api/v1/accounts" PyNone]).
Proof.
  apply (request_network_failure (client (fun _ => Raise ConnectionError))
           "GET" "/api/v1/accounts" PyNone ConnectionError).
  reflexivity.
Defined.

(** Whatever a request returns is the decoded body of the answer; and
    it is returned either because the status passed or because the
    body of the failure has no [code] in it. *)
Theorem request_result_is_body
        (api : API.t) (method path : string) (data : PyVal)
        (resp : Response) (v : PyVal) :
  API._session api (expected_call api method path data) = Ok resp ->
  fst (run (API._request api method path data)) = Ok v ->
  body resp = Some v
  /\ (success_status (status_code resp) = true \/ Py.contains v "code" = Ok false).
Proof.
  intros Hresp. rewrite request_outcome, Hresp. cbn [rbind].
  destruct (success_status (status_code resp)) eqn:Hstatus.
  - rewrite (success_status_passes _ Hstatus). cbn. unfold json.
    destruct (body resp); [|discriminate]. intros [= ->]. split; [reflexivity | now left].
  - rewrite (failure_status_raises _ Hstatus). unfold json.
    destruct (body resp) as [error|]; [|discriminate]. cbn.
    destruct (Py.contains error "code") as [[]|e] eqn:Hcode; cbn.
    + destruct (APIError_init error); discriminate.
    + intros [= ->]. split; [reflexivity | now right].
    + discriminate.
Qed.

Lemma request_result_is_body_200 :
  body (answer 200 (Some accounts_a1_a2)) = Some accounts_a1_a2
  /\ (success_status (status_code (answer 200 (Some accounts_a1_a2))) = true
      \/ Py.contains accounts_a1_a2 "code" = Ok false).
Proof.
  apply (request_result_is_body (client (always (answer 200 (Some accounts_a1_a2))))
           "GET" "/api/v1/accounts" PyNone); reflexivity.
Defined.

(** A domain error leaves a request only when the session answered with
    a 4xx or 5xx status and a body that has [code] and [message]: the
    error keeps that body and its argument is the [message]. *)
Theorem domain_error_only_from_coded_failure
        (api : API.t) (method path : string) (data : PyVal)
        (resp : Response) (message error : PyVal) :
  API._session api (expected_call api method path data) = Ok resp ->
  fst (run (API._request api method path data)) = Raise (APIError message error) ->
  success_status (status_code resp) = false
  /\ body resp = Some error
  /\ Py.contains error "code" = Ok true
  /\ Py.getitem error "message" = Ok message.
Proof.
  intros Hresp. rewrite request_outcome, Hresp. cbn [rbind].
  destruct (success_status (status_code resp)) eqn:Hstatus.
  - rewrite (success_status_passes _ Hstatus). cbn. unfold json.
    destruct (body resp); discriminate.
  - rewrite (failure_status_raises _ Hstatus). unfold json.
    destruct (body resp) as [err|]; [|discriminate]. cbn.
    destruct (Py.contains err "code") as [[]|e] eqn:Hcode; cbn; try discriminate.
    + unfold APIError_init.
      destruct (Py.getitem err "message") as [m|e] eqn:Hmessage; cbn.
      * intros H. injection H as -> ->. now repeat split.
      * intros H. injection H as ->.
        destruct err; cbn in Hmessage; try discriminate.
        destruct (Py.dict_get items "message"); discriminate.
    + intros H. injection H as ->.
      destruct err; cbn in Hcode; discriminate.
Qed.

Lemma domain_error_only_from_coded_failure_422 :
  success_status (status_code (answer 422 (Some insufficient_buying_power))) = false
  /\ body (answer 422 (Some insufficient_buying_power)) = Some insufficient_buying_power
  /\ Py.contains insufficient_buying_power "code" = Ok true
  /\ Py.getitem insufficient_buying_power "message" = Ok (PyStr "insufficient buying power").
Proof.
  apply (domain_error_only_from_coded_failure
           (client (always (answer 422 (Some insufficient_buying_power))))
           "POST" "/api/v1/accounts/a/orders" PyNone); reflexivity.
Defined.

(** The whole table of a 4xx or 5xx answer.  A body that is not JSON
    raises the decoding error.  An object with [code] and [message]
    raises the domain error, one with [code] alone [KeyError], one
    without [code] is returned like a result.  A null, a boolean or a
    number makes the test for [code] raise [TypeError]; a text or an
    array that has [code] in it reaches [APIError], whose look-up of
    [message] raises [TypeError]; any other text or array is returned
    like a result. *)
Theorem request_failure_outcome
        (api : API.t) (method path : string) (data : PyVal) (resp : Response) :
  API._session api (expected_call api method path data) = Ok resp ->
  success_status (status_code resp) = false ->
  fst (run (API._request api method path data))
  = match body resp with
    | None => Raise JSONDecodeError
    | Some (PyDict fields) =>
        match Py.dict_get fields "code", Py.dict_get fields "message" with
        | None, _ => Ok (PyDict fields)
        | Some _, Some message => Raise (APIError message (PyDict fields))
        | Some _, None => Raise (KeyError "message")
        end
    | Some (PyStr s) =>
        if Str.contains s "code" then Raise TypeError else Ok (PyStr s)
    | Some (PyList items) =>
        if existsb (Py.is_str "code") items then Raise TypeError else Ok (PyList items)
    | Some _ => Raise TypeError
    end.
Proof.
  intros Hresp Hstatus.
  rewrite request_outcome, Hresp. cbn [rbind].
  rewrite (failure_status_raises _ Hstatus). unfold json.
  destruct (body resp) as [[| | | |s|items|fields]|];
    cbn [rbind Py.contains]; try reflexivity.
  - now destruct (Str.contains s "code").
  - now destruct (existsb (Py.is_str "code") items).
  - unfold APIError_init. cbn [Py.getitem].
    destruct (Py.dict_get fields "code"); [|reflexivity].
    now destruct (Py.dict_get fields "message").
Qed.

Lemma request_failure_outcome_text :
  fst (run (API._request (client (always (answer 503 (Some (PyStr "bad gateway code")))))
                         "GET" "/api/v1/accounts" PyNone))
  = Raise TypeError.
Proof.
  apply (request_failure_outcome
           (client (always (answer 503 (Some (PyStr "bad gateway code")))))
           "GET" "/api/v1/accounts" PyNone
           (answer 503 (Some (PyStr "bad gateway code"))));
    reflexivity.
Defined.

(** ** The client and its verbs *)

Lemma environ_get_lookup (environ : list (string * string)) (name default : string) :
  API.environ_get environ name default
  = match attr_get environ name with Some v => v | None => default end.
Proof.
  induction environ as [|[k v] rest IH]; cbn; [reflexivity|].
  now destruct (String.eqb k name).
Qed.

(** A client sends every request to the URL the environment names under
    [ALPACA_API_BASE_URL], and to the production endpoint when the
    environment has no such variable; the path follows with nothing in
    between, and the key given at construction is the one in the header. *)
Theorem base_url_from_environment
        (environ : list (string * string)) (session : Session) (api_key : string)
        (method path : string) (data : PyVal) :
  map (fun c => (url c, Py.dict_get (kwargs c) "headers"))
      (snd (run (API._request (API.__init__ environ session api_key) method path data)))
  = [(match attr_get environ "ALPACA_API_BASE_URL" with
      | Some base => base
      | None => production_url
      end ++ path,
      Some (PyDict [("X-API-KEY", PyStr api_key)]))].
Proof.
  rewrite request_log. unfold expected_call, API.__init__.
  cbn [map url kwargs API._base_url API._key].
  now rewrite environ_get_lookup.
Qed.

(** The four verbs of the client: each makes the one call with its own
    method name; [get] hands [data] over as query parameters, [post],
    [patch] and [delete] as the JSON body. *)
Theorem verbs_place_data (api : API.t) (path : string) (data : PyVal) :
  map call_shape (snd (run (API.get api path data)))
  = [("GET", API._base_url api ++ path, Some data, None)]
  /\ map call_shape (snd (run (API.post api path data)))
     = [("POST", API._base_url api ++ path, None, Some data)]
  /\ map call_shape (snd (run (API.patch api path data)))
     = [("PATCH", API._base_url api ++ path, None, Some data)]
  /\ map call_shape (snd (run (API.delete api path data)))
     = [("DELETE", API._base_url api ++ path, None, Some data)].
Proof.
  unfold API.get, API.post, API.patch, API.delete.
  rewrite !request_log. repeat split.
Qed.

(** ** Accounts and their verbs *)

(** An account is built exactly from an object that has an [id]: the
    account then wraps that object, refers to the client it was given
    and holds the [id]; nothing else gives an account. *)
Theorem account_init_iff (o : PyVal) (api : API.t) (a : Account.t) :
  Account.__init__ o api = Ok a
  <-> exists fields account_id,
        o = PyDict fields
        /\ Py.dict_get fields "id" = Some account_id
        /\ a = {| Account.super := Entity.__init__ o;
                  Account._api := api;
                  Account._account_id := account_id |}.
Proof.
  unfold Account.__init__. split.
  - destruct o as [| | | | | |fields]; cbn; try discriminate.
    destruct (Py.dict_get fields "id") as [account_id|] eqn:Hid; cbn; [|discriminate].
    intros H. injection H as <-. now exists fields, account_id.
  - intros [fields [account_id [-> [Hid ->]]]]. cbn. now rewrite Hid.
Qed.

Lemma account_get_run (self : Account.t) (path : string) (data : PyVal) :
  run (Account.get self path data)
  = match Py.str (Account._account_id self) with
    | Ok account_text =>
        run (API._request (Account._api self) "GET" (scoped_path account_text path) data)
    | Raise e => (Raise e, [])
    end.
Proof.
  unfold Account.get. rewrite fullpath_format. cbn [Py.str rbind].
  now destruct (Py.str (Account._account_id self)).
Qed.

Lemma account_post_run (self : Account.t) (path : string) (data : PyVal) :
  run (Account.post self path data)
  = match Py.str (Account._account_id self) with
    | Ok account_text =>
        run (API._request (Account._api self) "POST" (scoped_path account_text path) data)
    | Raise e => (Raise e, [])
    end.
Proof.
  unfold Account.post. rewrite fullpath_format. cbn [Py.str rbind].
  now destruct (Py.str (Account._account_id self)).
Qed.

Lemma account_delete_run (self : Account.t) (path : string) (data : PyVal) :
  run (Account.delete self path data)
  = match Py.str (Account._account_id self) with
    | Ok account_text =>
        run (API._request (Account._api self) "DELETE" (scoped_path account_text path) data)
    | Raise e => (Raise e, [])
    end.
Proof.
  unfold Account.delete. rewrite fullpath_format. cbn [Py.str rbind].
  now destruct (Py.str (Account._account_id self)).
Qed.

(** The verbs of an account.  When the identifier has a text, each
    makes one call to the client's base URL, then [/api/v1/accounts/],
    that text, then the sub-path; [get] sends its data as query
    parameters, [post] and [delete] as the JSON body.  When the
    identifier has no text, as an integer of more than 4300 digits has
    none, each raises what the conversion raised and makes no call. *)
Theorem account_verbs_scoped (self : Account.t) (path : string) (data : PyVal) :
  match Py.str (Account._account_id self) with
  | Ok account_text =>
      map call_shape (snd (run (Account.get self path data)))
      = [("GET",
          API._base_url (Account._api self) ++ "/api/v1/accounts/" ++ account_text ++ path,
          Some data, None)]
      /\ map call_shape (snd (run (Account.post self path data)))
         = [("POST",
             API._base_url (Account._api self) ++ "/api/v1/accounts/" ++ account_text ++ path,
             None, Some data)]
      /\ map call_shape (snd (run (Account.delete self path data)))
         = [("DELETE",
             API._base_url (Account._api self) ++ "/api/v1/accounts/" ++ account_text ++ path,
             None, Some data)]
  | Raise e =>
      run (Account.get self path data) = (Raise e, [])
      /\ run (Account.post self path data) = (Raise e, [])
      /\ run (Account.delete self path data) = (Raise e, [])
  end.
Proof.
  rewrite account_get_run, account_post_run, account_delete_run.
  destruct (Py.str (Account._account_id self)).
  - rewrite !request_log. repeat split.
  - repeat split.
Qed.

Example account_verbs_numbered :
  map call_shape (snd (run (Account.get (account_numbered any_client 42) "/orders" PyNone)))
  = [("GET", "https://api.alpaca.markets/api/v1/accounts/42/orders", Some PyNone, None)].
Proof. reflexivity. Qed.

(** ** The operations of an account *)

Lemma run_bind_pure {A B} (m : Net A) (k : A -> Net B) (f : A -> result B) :
  (forall a log, k a log = (f a, log)) ->
  run (bind m k) = ((a <- fst (run m) ;; f a)%result, snd (run m)).
Proof.
  intros Hk. unfold run, bind.
  destruct (m []) as [[a|e] log]; cbn; [apply Hk | reflexivity].
Qed.

Lemma records_of_orders (items : list PyVal) :
  map (fun o => Entity._obj (Order.super o)) (map Order.__init__ items) = items.
Proof. rewrite map_map. cbn. apply map_id. Qed.

Lemma records_of_positions (items : list PyVal) :
  map (fun p => Entity._obj (Position.super p)) (map Position.__init__ items) = items.
Proof. rewrite map_map. cbn. apply map_id. Qed.

Lemma list_orders_run (self : Account.t) :
  run (Account.list_orders self)
  = match Py.str (Account._account_id self) with
    | Ok account_text =>
        ((resp <- fst (run (API._request (Account._api self) "GET"
                                         (scoped_path account_text "/orders") PyNone)) ;;
          items <- Py.iter resp ;;
          Ok (map Order.__init__ items))%result,
         [expected_call (Account._api self) "GET"
                        (scoped_path account_text "/orders") PyNone])
    | Raise e => (Raise e, [])
    end.
Proof.
  unfold Account.list_orders.
  rewrite run_bind_pure
    with (f := fun resp => (items <- Py.iter resp ;; Ok (map Order.__init__ items))%result).
  - rewrite account_get_run.
    destruct (Py.str (Account._account_id self)); [|reflexivity].
    now rewrite request_log.
  - intros resp log. unfold bind, lift, ret. now destruct (Py.iter resp).
Qed.

Lemma list_positions_run (self : Account.t) :
  run (Account.list_positions self)
  = match Py.str (Account._account_id self) with
    | Ok account_text =>
        ((resp <- fst (run (API._request (Account._api self) "GET"
                                         (scoped_path account_text "/positions") PyNone)) ;;
          items <- Py.iter resp ;;
          Ok (map Position.__init__ items))%result,
         [expected_call (Account._api self) "GET"
                        (scoped_path account_text "/positions") PyNone])
    | Raise e => (Raise e, [])
    end.
Proof.
  unfold Account.list_positions.
  rewrite run_bind_pure
    with (f := fun resp =>
                 (items <- Py.iter resp ;; Ok (map Position.__init__ items))%result).
  - rewrite account_get_run.
    destruct (Py.str (Account._account_id self)); [|reflexivity].
    now rewrite request_log.
  - intros resp log. unfold bind, lift, ret. now destruct (Py.iter resp).
Qed.

(** [list_orders] on an answer that passes, read through the records
    the returned orders hold.  For an array, the records are the items
    of the array, as many and in the same order, whatever the items
    are: nothing is asked of them, unlike for accounts.  For an object,
    they are the texts of its keys; for a text, its characters.  A
    null, a boolean or a number raises [TypeError]. *)
Theorem list_orders_by_body
        (self : Account.t) (account_text : string) (resp : Response) (v : PyVal) :
  Py.str (Account._account_id self) = Ok account_text ->
  API._session (Account._api self)
    (expected_call (Account._api self) "GET" (scoped_path account_text "/orders") PyNone)
  = Ok resp ->
  success_status (status_code resp) = true ->
  body resp = Some v ->
  (orders <- fst (run (Account.list_orders self)) ;;
   Ok (map (fun o => Entity._obj (Order.super o)) orders))%result
  = match v with
    | PyList items => Ok items
    | PyDict fields => Ok (map (fun kv => PyStr (fst kv)) fields)
    | PyStr s => Ok (map (fun c => PyStr (String c "")) (list_ascii_of_string s))
    | _ => Raise TypeError
    end.
Proof.
  intros Hid Hresp Hstatus Hbody.
  rewrite list_orders_run, Hid. cbn [fst].
  rewrite (request_success _ _ _ _ _ Hresp Hstatus). unfold json. rewrite Hbody.
  destruct v; cbn [rbind Py.iter]; try reflexivity; now rewrite records_of_orders.
Qed.

Lemma list_orders_by_body_two :
  (orders <- fst (run (Account.list_orders
                         (account_acct123
                            (client (always (answer 200 (Some (PyList [order_o1; PyNone])))))))) ;;
   Ok (map (fun o => Entity._obj (Order.super o)) orders))%result
  = Ok [order_o1; PyNone].
Proof.
  apply (list_orders_by_body
           (account_acct123 (client (always (answer 200 (Some (PyList [order_o1; PyNone]))))))
           "acct123"
           (answer 200 (Some (PyList [order_o1; PyNone])))
           (PyList [order_o1; PyNone])); reflexivity.
Defined.

(** [list_positions] on an answer that passes, read through the records
    the returned positions hold: the items of an array, as many and in
    the same order; the texts of the keys of an object; the characters
    of a text; [TypeError] for a null, a boolean or a number. *)
Theorem list_positions_by_body
        (self : Account.t) (account_text : string) (resp : Response) (v : PyVal) :
  Py.str (Account._account_id self) = Ok account_text ->
  API._session (Account._api self)
    (expected_call (Account._api self) "GET" (scoped_path account_text "/positions") PyNone)
  = Ok resp ->
  success_status (status_code resp) = true ->
  body resp = Some v ->
  (positions <- fst (run (Account.list_positions self)) ;;
   Ok (map (fun p => Entity._obj (Position.super p)) positions))%result
  = match v with
    | PyList items => Ok items
    | PyDict fields => Ok (map (fun kv => PyStr (fst kv)) fields)
    | PyStr s => Ok (map (fun c => PyStr (String c "")) (list_ascii_of_string s))
    | _ => Raise TypeError
    end.
Proof.
  intros Hid Hresp Hstatus Hbody.
  rewrite list_positions_run, Hid. cbn [fst].
  rewrite (request_success _ _ _ _ _ Hresp Hstatus). unfold json. rewrite Hbody.
  destruct v; cbn [rbind Py.iter]; try reflexivity; now rewrite records_of_positions.
Qed.

Lemma list_positions_by_body_one :
  (positions <- fst (run (Account.list_positions
                            (account_acct123
                               (client (always (answer 200 (Some (PyList [position_aapl])))))))) ;;
   Ok (map (fun p => Entity._obj (Position.super p)) positions))%result
  = Ok [position_aapl].
Proof.
  apply (list_positions_by_body
           (account_acct123 (client (always (answer 200 (Some (PyList [position_aapl]))))))
           "acct123"
           (answer 200 (Some (PyList [position_aapl])))
           (PyList [position_aapl])); reflexivity.
Defined.

Lemma orders_format (order_id : PyVal) :
  Py.format "/orders/{}" [order_id]
  = (order_text <- Py.str order_id ;; Ok ("/orders/" ++ order_text))%result.
Proof.
  cbn - [Py.str]. destruct (Py.str order_id); cbn; [|reflexivity].
  now rewrite append_empty.
Qed.

Lemma positions_format (asset_id : PyVal) :
  Py.format "/positions/{}" [asset_id]
  = (asset_text <- Py.str asset_id ;; Ok ("/positions/" ++ asset_text))%result.
Proof.
  cbn - [Py.str]. destruct (Py.str asset_id); cbn; [|reflexivity].
  now rewrite append_empty.
Qed.

Lemma get_order_by_client_order_id_run (self : Account.t) (client_order_id : PyVal) :
  run (Account.get_order_by_client_order_id self client_order_id)
  = match Py.str (Account._account_id self) with
    | Ok account_text =>
        ((resp <- fst (run (API._request (Account._api self) "GET"
                                         (scoped_path account_text "/orders")
                                         (PyDict [("client_order_id", client_order_id)]))) ;;
          Ok (Order.__init__ resp))%result,
         [expected_call (Account._api self) "GET" (scoped_path account_text "/orders")
                        (PyDict [("client_order_id", client_order_id)])])
    | Raise e => (Raise e, [])
    end.
Proof.
  unfold Account.get_order_by_client_order_id.
  rewrite run_bind_ret, account_get_run.
  destruct (Py.str (Account._account_id self)); [|reflexivity].
  now rewrite request_log.
Qed.

Lemma create_order_run
      (self : Account.t) (assert_id shares side type timeinforce : PyVal)
      (limit_price stop_price client_order_id : option PyVal) :
  exists data,
    run (Account.create_order self assert_id shares side type timeinforce
                              limit_price stop_price client_order_id)
    = match Py.str (Account._account_id self) with
      | Ok account_text =>
          ((resp <- fst (run (API._request (Account._api self) "POST"
                                           (scoped_path account_text "/orders") data)) ;;
            Ok (Order.__init__ resp))%result,
           [expected_call (Account._api self) "POST"
                          (scoped_path account_text "/orders") data])
      | Raise e => (Raise e, [])
      end.
Proof.
  unfold Account.create_order. eexists.
  rewrite run_bind_ret, account_post_run.
  destruct (Py.str (Account._account_id self)); [|reflexivity].
  now rewrite request_log.
Qed.

Lemma get_order_run (self : Account.t) (order_id : PyVal) :
  run (Account.get_order self order_id)
  = match Py.str (Account._account_id self), Py.str order_id with
    | Ok account_text, Ok order_text =>
        ((resp <- fst (run (API._request (Account._api self) "GET"
                              ("/api/v1/" ++ account_text ++ "/orders/" ++ order_text)
                              PyNone)) ;;
          Ok (Order.__init__ resp))%result,
         [expected_call (Account._api self) "GET"
                        ("/api/v1/" ++ account_text ++ "/orders/" ++ order_text) PyNone])
    | Raise e, _ => (Raise e, [])
    | Ok _, Raise e => (Raise e, [])
    end.
Proof.
  unfold Account.get_order. rewrite get_order_format.
  destruct (Py.str (Account._account_id self)); cbn [rbind]; [|reflexivity].
  destruct (Py.str order_id); cbn [rbind]; [|reflexivity].
  rewrite run_lift_bind, run_bind_ret. unfold API.get. now rewrite request_log.
Qed.

Lemma delete_order_run (self : Account.t) (order_id : PyVal) :
  run (Account.delete_order self order_id)
  = match Py.str order_id, Py.str (Account._account_id self) with
    | Ok order_text, Ok account_text =>
        ((_ <- fst (run (API._request (Account._api self) "DELETE"
                           (scoped_path account_text ("/orders/" ++ order_text)) PyNone)) ;;
          Ok tt)%result,
         [expected_call (Account._api self) "DELETE"
                        (scoped_path account_text ("/orders/" ++ order_text)) PyNone])
    | Raise e, _ => (Raise e, [])
    | Ok _, Raise e => (Raise e, [])
    end.
Proof.
  unfold Account.delete_order. rewrite orders_format.
  destruct (Py.str order_id); cbn [rbind]; [|reflexivity].
  rewrite run_lift_bind, run_bind_ret, account_delete_run.
  destruct (Py.str (Account._account_id self)); [|reflexivity].
  now rewrite request_log.
Qed.

Lemma get_position_run (self : Account.t) (asset_id : PyVal) :
  run (Account.get_position self asset_id)
  = match Py.str asset_id, Py.str (Account._account_id self) with
    | Ok asset_text, Ok account_text =>
        ((resp <- fst (run (API._request (Account._api self) "GET"
                              (scoped_path account_text ("/positions/" ++ asset_text))
                              PyNone)) ;;
          Ok (Position.__init__ resp))%result,
         [expected_call (Account._api self) "GET"
                        (scoped_path account_text ("/positions/" ++ asset_text)) PyNone])
    | Raise e, _ => (Raise e, [])
    | Ok _, Raise e => (Raise e, [])
    end.
Proof.
  unfold Account.get_position. rewrite positions_format.
  destruct (Py.str asset_id); cbn [rbind]; [|reflexivity].
  rewrite run_lift_bind, run_bind_ret, account_get_run.
  destruct (Py.str (Account._account_id self)); [|reflexivity].
  now rewrite request_log.
Qed.

(** [get_order_by_client_order_id] asks the very URL [list_orders]
    asks, with the identifier as the one query parameter
    [client_order_id] and no body; on an answer that passes, the order
    it returns holds the whole body as its record, whatever the shape
    of the body. *)
Theorem get_order_by_client_order_id_query
        (self : Account.t) (client_order_id : PyVal) (account_text : string)
        (resp : Response) (v : PyVal) :
  Py.str (Account._account_id self) = Ok account_text ->
  API._session (Account._api self)
    (expected_call (Account._api self) "GET" (scoped_path account_text "/orders")
                   (PyDict [("client_order_id", client_order_id)])) = Ok resp ->
  success_status (status_code resp) = true ->
  body resp = Some v ->
  (order <- fst (run (Account.get_order_by_client_order_id self client_order_id)) ;;
   Ok (Entity._obj (Order.super order)))%result
  = Ok v
  /\ map call_shape (snd (run (Account.get_order_by_client_order_id self client_order_id)))
     = [("GET",
         API._base_url (Account._api self) ++ "/api/v1/accounts/" ++ account_text ++ "/orders",
         Some (PyDict [("client_order_id", client_order_id)]), None)]
  /\ map url (snd (run (Account.get_order_by_client_order_id self client_order_id)))
     = map url (snd (run (Account.list_orders self))).
Proof.
  intros Hid Hresp Hstatus Hbody.
  rewrite get_order_by_client_order_id_run, list_orders_run, Hid. cbn [fst snd].
  rewrite (request_success _ _ _ _ _ Hresp Hstatus). unfold json. rewrite Hbody.
  repeat split.
Qed.

Lemma get_order_by_client_order_id_query_array :
  (order <- fst (run (Account.get_order_by_client_order_id
                        (account_acct123 (client (always (answer 200 (Some (PyList [order_o1]))))))
                        (PyStr "my-order"))) ;;
   Ok (Entity._obj (Order.super order)))%result
  = Ok (PyList [order_o1])
  /\ map call_shape
         (snd (run (Account.get_order_by_client_order_id
                      (account_acct123
                         (client (always (answer 200 (Some (PyList [order_o1]))))))
                      (PyStr "my-order"))))
     = [("GET", "https://api.alpaca.markets/api/v1/accounts/acct123/orders",
         Some (PyDict [("client_order_id", PyStr "my-order")]), None)].
Proof.
  destruct (get_order_by_client_order_id_query
              (account_acct123 (client (always (answer 200 (Some (PyList [order_o1]))))))
              (PyStr "my-order") "acct123"
              (answer 200 (Some (PyList [order_o1]))) (PyList [order_o1])
              eq_refl eq_refl eq_refl eq_refl) as [Hresult [Hcall _]].
  split; [exact Hresult | exact Hcall].
Defined.

(** [delete_order], for an order and an account whose identifiers have
    texts, sends DELETE to the scoped path [/orders/] followed by the
    order identifier, with a null JSON body and no query.  On an answer
    that passes, it returns nothing when the body is JSON, which it
    discards, and raises the decoding error when the body is not JSON,
    as for a 204 without content. *)
Theorem delete_order_outcome
        (self : Account.t) (order_id : PyVal) (account_text order_text : string)
        (resp : Response) :
  Py.str order_id = Ok order_text ->
  Py.str (Account._account_id self) = Ok account_text ->
  API._session (Account._api self)
    (expected_call (Account._api self) "DELETE"
                   (scoped_path account_text ("/orders/" ++ order_text)) PyNone) = Ok resp ->
  success_status (status_code resp) = true ->
  fst (run (Account.delete_order self order_id))
  = match body resp with
    | Some _ => Ok tt
    | None => Raise JSONDecodeError
    end
  /\ map call_shape (snd (run (Account.delete_order self order_id)))
     = [("DELETE",
         API._base_url (Account._api self) ++ "/api/v1/accounts/"
         ++ account_text ++ "/orders/" ++ order_text,
         None, Some PyNone)].
Proof.
  intros Horder Hid Hresp Hstatus.
  rewrite delete_order_run, Horder, Hid. cbn [fst snd].
  rewrite (request_success _ _ _ _ _ Hresp Hstatus). unfold json.
  split; [now destruct (body resp) | reflexivity].
Qed.

Lemma delete_order_outcome_no_content :
  fst (run (Account.delete_order (account_acct123 (client (always (answer 204 None))))
                                 (PyStr "o1")))
  = Raise JSONDecodeError
  /\ map call_shape
         (snd (run (Account.delete_order (account_acct123 (client (always (answer 204 None))))
                                         (PyStr "o1"))))
     = [("DELETE", "https://api.alpaca.markets/api/v1/accounts/acct123/orders/o1",
         None, Some PyNone)].
Proof.
  apply (delete_order_outcome (account_acct123 (client (always (answer 204 None))))
           (PyStr "o1") "acct123" "o1" (answer 204 None)); reflexivity.
Defined.

(** [get_position], for an asset and an account whose identifiers have
    texts, sends GET without data to the scoped path [/positions/]
    followed by the asset identifier; on an answer that passes, the
    position it returns holds the body as its record. *)
Theorem get_position_path
        (self : Account.t) (asset_id : PyVal) (account_text asset_text : string)
        (resp : Response) (v : PyVal) :
  Py.str asset_id = Ok asset_text ->
  Py.str (Account._account_id self) = Ok account_text ->
  API._session (Account._api self)
    (expected_call (Account._api self) "GET"
                   (scoped_path account_text ("/positions/" ++ asset_text)) PyNone) = Ok resp ->
  success_status (status_code resp) = true ->
  body resp = Some v ->
  (position <- fst (run (Account.get_position self asset_id)) ;;
   Ok (Entity._obj (Position.super position)))%result
  = Ok v
  /\ map call_shape (snd (run (Account.get_position self asset_id)))
     = [("GET",
         API._base_url (Account._api self) ++ "/api/v1/accounts/"
         ++ account_text ++ "/positions/" ++ asset_text,
         Some PyNone, None)].
Proof.
  intros Hasset Hid Hresp Hstatus Hbody.
  rewrite get_position_run, Hasset, Hid. cbn [fst snd].
  rewrite (request_success _ _ _ _ _ Hresp Hstatus). unfold json. rewrite Hbody.
  split; reflexivity.
Qed.

Lemma get_position_path_aapl :
  (position <- fst (run (Account.get_position
                           (account_acct123 (client (always (answer 200 (Some position_aapl)))))
                           (PyStr "asset-1"))) ;;
   Ok (Entity._obj (Position.super position)))%result
  = Ok position_aapl
  /\ map call_shape
         (snd (run (Account.get_position
                      (account_acct123 (client (always (answer 200 (Some position_aapl)))))
                      (PyStr "asset-1"))))
     = [("GET", "https://api.alpaca.markets/api/v1/accounts/acct123/positions/asset-1",
         Some PyNone, None)].
Proof.
  apply (get_position_path
           (account_acct123 (client (always (answer 200 (Some position_aapl)))))
           (PyStr "asset-1") "acct123" "asset-1"
           (answer 200 (Some position_aapl)) position_aapl);
    reflexivity.
Defined.

(** [create_order] on an answer that passes returns one order, and the
    record that order holds is the decoded body, whatever the body is. *)
Theorem create_order_returns_order
        (self : Account.t) (assert_id shares side type timeinforce : PyVal)
        (limit_price stop_price client_order_id : option PyVal)
        (call : Call) (resp : Response) (v : PyVal) :
  snd (run (Account.create_order self assert_id shares side type timeinforce
                                 limit_price stop_price client_order_id)) = [call] ->
  API._session (Account._api self) call = Ok resp ->
  success_status (status_code resp) = true ->
  body resp = Some v ->
  (order <- fst (run (Account.create_order self assert_id shares side type timeinforce
                                           limit_price stop_price client_order_id)) ;;
   Ok (Entity._obj (Order.super order)))%result
  = Ok v.
Proof.
  destruct (create_order_run self assert_id shares side type timeinforce
              limit_price stop_price client_order_id) as [data ->].
  destruct (Py.str (Account._account_id self)); cbn [fst snd]; [|discriminate].
  intros [= <-] Hresp Hstatus Hbody.
  rewrite (request_success _ _ _ _ _ Hresp Hstatus). unfold json. now rewrite Hbody.
Qed.

Lemma create_order_returns_order_o1 :
  (order <- fst (run (Account.create_order
                        (account_acct123 (client (always (answer 200 (Some order_o1)))))
                        (PyStr "asset-1") (PyInt 10) (PyStr "buy") (PyStr "limit")
                        (PyStr "day") (Some (PyFloat "10.5")) None None)) ;;
   Ok (Entity._obj (Order.super order)))%result
  = Ok order_o1.
Proof.
  apply (create_order_returns_order
           (account_acct123 (client (always (answer 200 (Some order_o1)))))
           (PyStr "asset-1") (PyInt 10) (PyStr "buy") (PyStr "limit") (PyStr "day")
           (Some (PyFloat "10.5")) None None
           (expected_call (client (always (answer 200 (Some order_o1)))) "POST"
              "/api/v1/accounts/acct123/orders"
              (PyDict [("assert_id", PyStr "asset-1"); ("shares", PyInt 10);
                       ("side", PyStr "buy"); ("type", PyStr "limit");
                       ("timeinforce", PyStr "day"); ("limit_price", PyFloat "10.5");
                       ("stop_price", PyNone); ("client_order_id", PyNone)]))
           (answer 200 (Some order_o1)) order_o1); reflexivity.
Defined.

(** No operation calls the session more than once, and nothing is
    retried.  [list_accounts] always makes its one call.  An operation
    of an account makes exactly one call when the identifiers that go
    into its path have texts, whatever comes back, and none when one
    of them has no text, as an integer of more than 4300 digits has
    none: the path cannot be made then. *)
Theorem one_call_per_operation
        (self : Account.t) (api : API.t) (id : PyVal)
        (assert_id shares side type timeinforce : PyVal)
        (limit_price stop_price client_order_id : option PyVal) :
  length (snd (run (API_list_accounts api))) = 1%nat
  /\ length (snd (run (Account.list_orders self)))
     = (if has_text (Account._account_id self) then 1 else 0)%nat
  /\ length (snd (run (Account.create_order self assert_id shares side type timeinforce
                                            limit_price stop_price client_order_id)))
     = (if has_text (Account._account_id self) then 1 else 0)%nat
  /\ length (snd (run (Account.get_order self id)))
     = (if has_text (Account._account_id self) && has_text id then 1 else 0)%nat
  /\ length (snd (run (Account.get_order_by_client_order_id self id)))
     = (if has_text (Account._account_id self) then 1 else 0)%nat
  /\ length (snd (run (Account.delete_order self id)))
     = (if has_text (Account._account_id self) && has_text id then 1 else 0)%nat
  /\ length (snd (run (Account.list_positions self)))
     = (if has_text (Account._account_id self) then 1 else 0)%nat
  /\ length (snd (run (Account.get_position self id)))
     = (if has_text (Account._account_id self) && has_text id then 1 else 0)%nat.
Proof.
  unfold has_text.
  destruct (create_order_run self assert_id shares side type timeinforce
              limit_price stop_price client_order_id) as [data ->].
  rewrite list_accounts_run, list_orders_run, get_order_by_client_order_id_run,
    delete_order_run, list_positions_run, get_position_run, get_order_run.
  rewrite request_log.
  destruct (Py.str (Account._account_id self)); destruct (Py.str id); repeat split.
Qed.

(** An integer of more than 4300 digits has no text, and an order
    identifier that is one ends [get_order] before any call. *)
Lemma no_call_without_text (self : Account.t) (z : Z) :
  (4300 < digit_count z)%nat ->
  Py.str (PyInt z) = Raise ValueError
  /\ exists e, run (Account.get_order self (PyInt z)) = (Raise e, []).
Proof.
  intros Hdigits.
  assert (Hstr : Py.str (PyInt z) = Raise ValueError).
  { cbn [Py.str Py.repr]. unfold Str.of_Z, Str.int_max_str_digits.
    fold (digit_count z).
    destruct (digit_count z <=? 4300)%nat eqn:Hle; [|reflexivity].
    apply Nat.leb_le in Hle. lia. }
  split; [exact Hstr|].
  rewrite get_order_run, Hstr.
  destruct (Py.str (Account._account_id self)); eexists; reflexivity.
Qed.

(** ** Accounts from an answer *)

Lemma account_init_raises (o : PyVal) (api : API.t) (e : exn) :
  Account.__init__ o api = Raise e -> e = KeyError "id" \/ e = TypeError.
Proof.
  unfold Account.__init__.
  destruct o as [| | | | | |fields]; cbn; try (intros [= <-]; now right).
  destruct (Py.dict_get fields "id"); cbn; [discriminate|].
  intros [= <-]. now left.
Qed.

Lemma account_init_has_id (o : PyVal) (api : API.t) (a : Account.t) :
  Account.__init__ o api = Ok a -> has_id o.
Proof.
  unfold Account.__init__, has_id.
  destruct o as [| | | | | |fields]; cbn; try discriminate.
  destruct (Py.dict_get fields "id") as [account_id|] eqn:Hid; cbn; [|discriminate].
  intros _. now exists fields, account_id.
Qed.

Lemma rmap_accounts_fails (api : API.t) (items : list PyVal) :
  Exists (fun o => ~ has_id o) items ->
  rmap (fun o => Account.__init__ o api) items = Raise (KeyError "id")
  \/ rmap (fun o => Account.__init__ o api) items = Raise TypeError.
Proof.
  induction items as [|o items IH]; intros Hbad; [inversion Hbad|].
  cbn. destruct (Account.__init__ o api) as [a|e] eqn:Hinit; cbn.
  - apply account_init_has_id in Hinit.
    inversion Hbad as [? ? Ho|? ? Hrest]; subst; [contradiction|].
    destruct (IH Hrest) as [-> | ->]; cbn; [now left | now right].
  - destruct (account_init_raises _ _ _ Hinit) as [-> | ->]; [now left | now right].
Qed.

(** [list_accounts] gives all accounts or none: when the array of an
    answer that passes has an item that is not an object with [id], the
    call raises [KeyError] for [id] or [TypeError], and the accounts
    built from the items before it are lost. *)
Theorem list_accounts_all_or_nothing
        (api : API.t) (resp : Response) (items : list PyVal) :
  API._session api (expected_call api "GET" "/api/v1/accounts" PyNone) = Ok resp ->
  success_status (status_code resp) = true ->
  body resp = Some (PyList items) ->
  Exists (fun o => ~ has_id o) items ->
  fst (run (API_list_accounts api)) = Raise (KeyError "id")
  \/ fst (run (API_list_accounts api)) = Raise TypeError.
Proof.
  intros Hresp Hstatus Hbody Hbad.
  rewrite list_accounts_run. cbn [fst].
  rewrite (request_success _ _ _ _ _ Hresp Hstatus). unfold json. rewrite Hbody. cbn.
  now apply rmap_accounts_fails.
Qed.

Lemma list_accounts_all_or_nothing_second :
  fst (run (API_list_accounts
              (client (always (answer 200 (Some (PyList [PyDict [("id", PyStr "a1")];
                                                         PyStr "a2"])))))))
  = Raise (KeyError "id")
  \/ fst (run (API_list_accounts
                 (client (always (answer 200 (Some (PyList [PyDict [("id", PyStr "a1")];
                                                            PyStr "a2"])))))))
     = Raise TypeError.
Proof.
  apply (list_accounts_all_or_nothing
           (client (always (answer 200 (Some (PyList [PyDict [("id", PyStr "a1")];
                                                      PyStr "a2"])))))
           (answer 200 (Some (PyList [PyDict [("id", PyStr "a1")]; PyStr "a2"])))
           [PyDict [("id", PyStr "a1")]; PyStr "a2"]); try reflexivity.
  apply Exists_cons_tl, Exists_cons_hd.
  intros [fields [account_id [H _]]]. discriminate H.
Defined.

(** What [list_accounts] makes of a body that is not an array, be it
    the body of an answer that passed or the body of a failure that
    [_request] returned: an object is walked key by key and a text
    character by character, so the first key or character raises
    [TypeError] and only the empty object and the empty text give the
    empty list; a null, a boolean or a number raises [TypeError]. *)
Theorem list_accounts_not_array (api : API.t) (v : PyVal) :
  fst (run (API._request api "GET" "/api/v1/accounts" PyNone)) = Ok v ->
  (forall items, v <> PyList items) ->
  fst (run (API_list_accounts api))
  = match v with
    | PyDict [] => Ok []
    | PyStr "" => Ok []
    | _ => Raise TypeError
    end.
Proof.
  intros Hrequest Hshape.
  rewrite list_accounts_run. cbn [fst]. rewrite Hrequest. cbn [rbind].
  destruct v as [| | | |s|items|fields]; cbn; try reflexivity.
  - now destruct s.
  - now destruct (Hshape items).
  - now destruct fields.
Qed.

Lemma list_accounts_not_array_failure :
  fst (run (API_list_accounts (client (always (answer 500 (Some error_without_code))))))
  = Raise TypeError.
Proof.
  apply (list_accounts_not_array
           (client (always (answer 500 (Some error_without_code)))) error_without_code);
    [reflexivity|].
  intros items H. discriminate H.
Defined.

(** ** Field access, case by case *)

Lemma getattr_timestamp_created_at :
  Entity.__getattr__ (fun s : string => Ok s) (Entity.__init__ order_o1) "created_at"
  = Ok (ADatetime "2018-03-09T19:05:27Z").
Proof.
  apply (getattr_timestamp (fun s : string => Ok s) (Entity.__init__ order_o1)
           [("id", PyStr "o1"); ("created_at", PyStr "2018-03-09T19:05:27Z");
            ("filled_at", PyNone); ("status", PyStr "new")]
           "created_at" "2018-03-09T19:05:27Z"); reflexivity.
Defined.

Lemma getattr_at_other_text_pending :
  Entity.__getattr__ (fun s : string => Ok s)
    (Entity.__init__ (PyDict [("filled_at", PyStr "pending")])) "filled_at"
  = Ok (AValue (PyStr "pending")).
Proof.
  apply (getattr_at_other_text (fun s : string => Ok s)
           (Entity.__init__ (PyDict [("filled_at", PyStr "pending")]))
           [("filled_at", PyStr "pending")] "filled_at" "pending"); reflexivity.
Defined.

Lemma getattr_at_not_text_null :
  Entity.__getattr__ (fun s : string => Ok s) (Entity.__init__ order_o1) "filled_at"
  = Raise TypeError.
Proof.
  apply (getattr_at_not_text (fun s : string => Ok s) (Entity.__init__ order_o1)
           [("id", PyStr "o1"); ("created_at", PyStr "2018-03-09T19:05:27Z");
            ("filled_at", PyNone); ("status", PyStr "new")]
           "filled_at" PyNone); try reflexivity.
  intros s H. discriminate H.
Defined.

(** The pattern looks at the first eleven characters only: a text that
    matches has at least eleven, and goes on matching whatever is put
    after it, so what follows the T is left to the parser. *)
Theorem timestamp_pattern_prefix (s : string) :
  Re.match_ ISO8601YMD (PyStr s) = Ok true ->
  (11 <= String.length s)%nat
  /\ forall rest, Re.match_ ISO8601YMD (PyStr (s ++ rest)) = Ok true.
Proof.
  cbn [Re.match_]. rewrite iso8601ymd_matches. intros [= Hmatch].
  unfold starts_with_ymd_t in Hmatch.
  do 11 (destruct s as [|? s]; [discriminate Hmatch|]).
  split; [cbn; lia|].
  intros rest. rewrite iso8601ymd_matches. unfold starts_with_ymd_t.
  cbn [list_ascii_of_string append]. cbn [list_ascii_of_string] in Hmatch.
  now rewrite Hmatch.
Qed.

Lemma timestamp_pattern_prefix_date :
  (11 <= String.length "2018-03-09T")%nat
  /\ forall rest, Re.match_ ISO8601YMD (PyStr ("2018-03-09T" ++ rest)) = Ok true.
Proof.
  apply (timestamp_pattern_prefix "2018-03-09T"). reflexivity.
Defined.

(** Attribute access on an account with a name that is none of the
    names the wrapper defines and is not of the double-underscore form
    is field access on its record: the outcome is that of
    [Entity.__getattr__]. *)
Theorem account_getattr_falls_to_record
        {datetime : Type} (dateutil_parse : string -> result datetime)
        (a : Account.t) (name : string) :
  existsb (String.eqb name)
          (["_obj"; "_api"; "_account_id"] ++ Account.class_attrs ++ Entity.class_attrs)
  = false ->
  Str.is_dunder name = false ->
  Account.getattr dateutil_parse a name
  = Entity.__getattr__ dateutil_parse (Account.super a) name.
Proof.
  intros H Hname. rewrite !existsb_app in H.
  apply orb_false_elim in H as [Hinstance H].
  apply orb_false_elim in H as [Hclass Hbase].
  unfold Account.getattr.
  rewrite (attr_get_absent (Account.instance_attrs a) name Hinstance).
  rewrite Hclass, Hbase.
  rewrite (not_dunder_not_among (class_given_attrs ++ object_attrs) name);
    [reflexivity| |exact Hname].
  apply Forall_app. split; [apply class_given_attrs_dunder | apply object_attrs_dunder].
Qed.

Lemma account_getattr_falls_to_record_status :
  Account.getattr (fun s : string => Ok s)
    (account_acct123 (client (always (answer 200 None)))) "status"
  = Entity.__getattr__ (fun s : string => Ok s)
      (Account.super (account_acct123 (client (always (answer 200 None))))) "status".
Proof.
  apply (account_getattr_falls_to_record (fun s : string => Ok s)
           (account_acct123 (client (always (answer 200 None)))) "status");
    reflexivity.
Defined.

(** Attribute access on an order or a position, which add nothing to
    [Entity]: a field of the record whose name does not end in [_at],
    is not [_obj] and is not of the double-underscore form comes back
    as it is in the record, whatever its type and even when it is a
    text that starts like a date. *)
Theorem entity_getattr_plain_field
        {datetime : Type} (dateutil_parse : string -> result datetime)
        (self : Entity.t) (fields : list (string * PyVal)) (name : string) (val : PyVal) :
  Entity._obj self = PyDict fields ->
  Py.dict_get fields name = Some val ->
  Str.endswith name "_at" = false ->
  String.eqb name "_obj" = false ->
  Str.is_dunder name = false ->
  Entity.getattr dateutil_parse self name = Ok (AValue val).
Proof.
  intros Hobj Hget Hsuffix Hinstance Hname.
  unfold Entity.getattr.
  rewrite (attr_get_absent (Entity.instance_attrs self) name).
  - rewrite (not_dunder_not_among Entity.class_attrs name);
      [|repeat constructor|exact Hname].
    rewrite (not_dunder_not_among (class_given_attrs ++ object_attrs) name);
      [|apply Forall_app; split;
        [apply class_given_attrs_dunder | apply object_attrs_dunder]|exact Hname].
    now apply getattr_plain_field with (fields := fields).
  - cbn. now rewrite Hinstance.
Qed.

Lemma entity_getattr_plain_field_timestamp :
  Entity.getattr (fun s : string => Ok s)
    (Entity.__init__ (PyDict [("timestamp", PyStr "2018-03-09T19:05:27Z")])) "timestamp"
  = Ok (AValue (PyStr "2018-03-09T19:05:27Z")).
Proof.
  apply (entity_getattr_plain_field (fun s : string => Ok s)
           (Entity.__init__ (PyDict [("timestamp", PyStr "2018-03-09T19:05:27Z")]))
           [("timestamp", PyStr "2018-03-09T19:05:27Z")] "timestamp"
           (PyStr "2018-03-09T19:05:27Z")); reflexivity.
Defined.

(** Names the interpreter provides are found before the record is
    looked at: on an order whose record has a field called
    [__module__], attribute access gives the interpreter's attribute,
    and [__getattr__] is not reached. *)
Example entity_getattr_interpreter_name :
  Entity.getattr (fun s : string => Ok s)
    (Entity.__init__ (PyDict [("__module__", PyStr "zzz")])) "__module__"
  = Ok (ABuiltin "__module__")
  /\ Account.getattr (fun s : string => Ok s) (account_acct123 any_client) "__doc__"
     = Ok (ABuiltin "__doc__").
Proof. split; reflexivity. Qed.
